(** * The Serve controller (python/ray/serve/controller.py)

    A shallow embedding of [ServeController]: its request handlers, the
    control loop and the node-preemption pipeline, as computations in a
    state-and-exception monad over the controller's components. *)

From Stdlib Require Import PrimFloat ZArith.
From stdpp Require Import gmap strings list fin_maps.

Local Open Scope Z_scope.

(** ** Python dictionaries that are iterated

    A Python [dict] keeps insertion order, and the controller iterates over
    several of them ([traffic_dict], the endpoint table, the replica handles,
    [target_backends]); those are association lists.  Assigning to a present
    key keeps its position, assigning to a new key appends. *)
Module PyDict.
Section Dict.
Context {K V : Type} `{EqDecision K}.

(** [k in d] *)
Definition mem (k : K) (d : list (K * V)) : bool := bool_decide (k ∈ d.*1).

(** [d.get(k)] *)
Fixpoint get (k : K) (d : list (K * V)) : option V :=
  match d with
  | [] => None
  | (k', v) :: d' => if decide (k = k') then Some v else get k d'
  end.

(** [d[k] = v] *)
Fixpoint set (k : K) (v : V) (d : list (K * V)) : list (K * V) :=
  match d with
  | [] => [(k, v)]
  | (k', v') :: d' =>
      if decide (k = k') then (k, v) :: d' else (k', v') :: set k v d'
  end.

(** [d.pop(k, None)] *)
Fixpoint del (k : K) (d : list (K * V)) : list (K * V) :=
  match d with
  | [] => []
  | (k', v') :: d' => if decide (k = k') then del k d' else (k', v') :: del k d'
  end.

End Dict.
End PyDict.

(** ** Exceptions, log records and observable effects *)

(** The exceptions the controller raises itself, and any other instance of
    Python's [Exception] that a collaborator may raise. *)
Inductive Exn :=
| ValueError (msg : string)
| KeyError (msg : string)
| AssertionError
| OtherException (cls msg : string).

(** What the handlers pass to [logger.info] and [logger.error]; the
    arguments of each format string are kept as they are. *)
Inductive LogRecord :=
| RegisteringRoute (route : option string) (endpoint : string) (methods : gset string)
| DeletingEndpoint (endpoint : string)
| ExceptionUpdatingHTTPState (e : Exn)
| ExceptionUpdatingBackendState (e : Exn).

(** How a method ends: it returns a value or raises. *)
Inductive Outcome (A : Type) :=
| Return (a : A)
| Raise (e : Exn).
Arguments Return {A} a.
Arguments Raise {A} e.

(** An actor handle of a running replica.  The handle itself is opaque to
    the controller; [actor_node_ip] is the node the replica is scheduled on,
    which Workload State tracks. *)
Record ActorHandle := {
  actor_name : string;
  actor_node_ip : string;
}.

(** What a [threading.Timer] of the preemption pipeline runs when it fires. *)
Inductive TimerCallback :=
| GracefulShutdownBeforeShutoff (target_actors : list ActorHandle)
| RescaleAfterWarningExpires (target_backends : list (string * Z)).

(** The effects of the controller that are not changes of its components. *)
Inductive Event :=
| LockAcquired
| LockReleased
| LoggedInfo (r : LogRecord)
| LoggedError (r : LogRecord)
| Slept (seconds : float)
| AwaitedRoute (endpoint : string) (timeout_s : Z)
| TimerStarted (interval : float) (callback : TimerCallback)
| DrainRequested (actor_handle : ActorHandle).

(** Whether [write_lock] is held after the events of [tr]. *)
Fixpoint lock_held (held : bool) (tr : list Event) : bool :=
  match tr with
  | [] => held
  | LockAcquired :: tr' => lock_held true tr'
  | LockReleased :: tr' => lock_held false tr'
  | _ :: tr' => lock_held held tr'
  end.

(** ** Data model *)

Abbreviation BackendTag := string (only parsing).
Abbreviation EndpointTag := string (only parsing).
Abbreviation ReplicaTag := string (only parsing).
Abbreviation GoalId := nat (only parsing).

(** [replica_config.backend_def] as [deploy] inspects it: either a class,
    with the names that [inspect.getmembers(backend_def, inspect.isfunction)]
    yields, or something that is not a class. *)
Inductive BackendDef :=
| ClassDef (function_members : list string)
| CallableDef.

(** [EndpointInfo(http_methods, route=..., python_methods=..., legacy=...)];
    a keyword the caller leaves out is [None] here (the constructor's
    default, declared in ray/serve/common.py, applies). *)
Record EndpointInfo := {
  http_methods : gset string;
  route : option string;
  python_methods : option (list string);
  legacy : option bool;
}.

(** Modelled from the spec: [TrafficPolicy] (declared in ray/serve/common.py,
    which is not among the sources), the weighted split of an endpoint's
    traffic across backends and the shadow fractions that [shadow_traffic]
    adds later. *)
Record TrafficPolicy := {
  traffic_dict : list (BackendTag * float);
  shadow_dict : list (BackendTag * float);
}.

(** Modelled from the spec: [TrafficPolicy(traffic_dict)], the policy with the
    given weights and no shadow fraction.  The weights are kept as given: the
    spec records that they are checked only for the existence of their
    backends, which [_validate_traffic_dict] does before the call. *)
Definition TrafficPolicy_init (traffic_dict : list (BackendTag * float)) : TrafficPolicy :=
  {| traffic_dict := traffic_dict; shadow_dict := [] |}.

(** One value of the dictionary [get_endpoints()] returns: the controller
    reads [info["traffic"]] and [info["shadows"]]. *)
Record EndpointView := {
  view_route : option string;
  view_methods : gset string;
  view_traffic : list (BackendTag * float);
  view_shadows : list (BackendTag * float);
}.

(** How often to call the control loop on the controller. *)
Definition CONTROL_LOOP_PERIOD_S : float := 0x1.999999999999ap-4%float.

Section Controller.

(** The parts of the serving system the controller only passes around or
    calls into: the wrapped worker class, the replica configuration, the
    values of backend-config fields, and the HTTP proxy fleet. *)
Context {WorkerClass ReplicaConfig FieldValue HTTPState : Type}.
Variable backend_def : ReplicaConfig → BackendDef.
Variable create_backend_replica : BackendDef → WorkerClass.
Variable ALL_HTTP_METHODS : gset string.
Variable RESERVED_VERSION_TAG : string.

(** [BackendConfig] is a pydantic model: the value of every field, and
    [__fields_set__], the fields given explicitly when it was built. *)
Record BackendConfig := {
  field_values : gmap string FieldValue;
  fields_set : gset string;
}.

(** [config.dict(exclude_unset=True)] *)
Definition BackendConfig_dict_exclude_unset (c : BackendConfig) : gmap string FieldValue :=
  filter (λ kv, kv.1 ∈ fields_set c) (field_values c).

(** [config.copy(update=...)] *)
Definition BackendConfig_copy (c : BackendConfig) (update : gmap string FieldValue) : BackendConfig :=
  {| field_values := update ∪ field_values c;
     fields_set := fields_set c ∪ dom update |}.

Record BackendInfo := {
  worker_class : WorkerClass;
  version : option string;
  backend_config : BackendConfig;
  replica_config : ReplicaConfig;
}.

(** Modelled from the spec: [BackendState] (ray/serve/backend_state.py is
    not among the sources).  Workload State owns the mapping from backend
    name to its description and the live replicas; [_target_replicas] is the
    dictionary the preemption pipeline adjusts; [goals_created] numbers the
    goal identifiers handed out. *)
Record BackendState := {
  backends : gmap BackendTag BackendInfo;
  _target_replicas : gmap BackendTag Z;
  running_replica_handles : list (BackendTag * list (ReplicaTag * ActorHandle));
  goals_created : nat;
}.

(** Modelled from the spec: [BackendState.get_backend], which gives the
    registered [BackendInfo] or [None]. *)
Definition BackendState_get_backend (tag : BackendTag) (bs : BackendState) : option BackendInfo :=
  backends bs !! tag.

(** Modelled from the spec: [BackendState.deploy_backend], which stores the
    description under the tag (replacing an earlier one) and returns a new
    goal identifier. *)
Definition BackendState_deploy_backend (tag : BackendTag) (info : BackendInfo)
    (bs : BackendState) : option GoalId * BackendState :=
  (Some (goals_created bs),
   {| backends := <[tag := info]> (backends bs);
      _target_replicas := _target_replicas bs;
      running_replica_handles := running_replica_handles bs;
      goals_created := S (goals_created bs) |}).

(** Modelled from the spec: [BackendState.delete_backend], which requests
    the teardown of a registered backend and returns its goal identifier,
    or returns [None] when the tag is not registered. *)
Definition BackendState_delete_backend (tag : BackendTag) (force_kill : bool)
    (bs : BackendState) : option GoalId * BackendState :=
  match backends bs !! tag with
  | None => (None, bs)
  | Some _ =>
      (Some (goals_created bs),
       {| backends := delete tag (backends bs);
          _target_replicas := _target_replicas bs;
          running_replica_handles := running_replica_handles bs;
          goals_created := S (goals_created bs) |})
  end.

Definition set_target_replicas (t : gmap BackendTag Z) (bs : BackendState) : BackendState :=
  {| backends := backends bs;
     _target_replicas := t;
     running_replica_handles := running_replica_handles bs;
     goals_created := goals_created bs |}.

(** Modelled from the spec: [EndpointState] (ray/serve/endpoint_state.py is
    not among the sources).  Routing State owns the mapping from endpoint
    name to its routing metadata and traffic policy, in insertion order. *)
Definition EndpointState : Type := list (EndpointTag * (EndpointInfo * TrafficPolicy)).

Definition endpoint_view (e : EndpointInfo * TrafficPolicy) : EndpointView :=
  {| view_route := route e.1;
     view_methods := http_methods e.1;
     view_traffic := traffic_dict e.2;
     view_shadows := shadow_dict e.2 |}.

(** Modelled from the spec: [EndpointState.get_endpoints], the listing of
    every endpoint with its route, methods, traffic and shadows. *)
Definition EndpointState_get_endpoints (es : EndpointState) : list (EndpointTag * EndpointView) :=
  prod_map id endpoint_view <$> es.

(** Modelled from the spec: [EndpointState.create_endpoint] and
    [EndpointState.update_endpoint], which record the [EndpointInfo] and the
    [TrafficPolicy] under the endpoint's name. *)
Definition EndpointState_create_endpoint (endpoint : EndpointTag) (info : EndpointInfo)
    (policy : TrafficPolicy) (es : EndpointState) : EndpointState :=
  PyDict.set endpoint (info, policy) es.

Definition EndpointState_update_endpoint (endpoint : EndpointTag) (info : EndpointInfo)
    (policy : TrafficPolicy) (es : EndpointState) : EndpointState :=
  PyDict.set endpoint (info, policy) es.

(** Modelled from the spec: [EndpointState.delete_endpoint], which removes
    the routing entry (and nothing when there is none). *)
Definition EndpointState_delete_endpoint (endpoint : EndpointTag) (es : EndpointState) : EndpointState :=
  PyDict.del endpoint es.

(** Modelled from the spec: [EndpointState.get_endpoint_route], the route of
    the endpoint, or [None]. *)
Definition EndpointState_get_endpoint_route (endpoint : EndpointTag) (es : EndpointState) : option string :=
  match PyDict.get endpoint es with
  | Some e => route e.1
  | None => None
  end.

(** The reconcile operations of Workload State and HTTP Fleet State, and the
    wait for a route to reach the proxies: each may change its component and
    may raise.  Nothing is assumed about them. *)
Variable BackendState_update : BackendState → option Exn * BackendState.
Variable HTTPState_update : HTTPState → option Exn * HTTPState.
Variable HTTPState_ensure_http_route_exists :
  EndpointTag → Z → HTTPState → option Exn * HTTPState.

(** ** The controller's state and its computations *)

Record Controller := {
  endpoint_state : EndpointState;
  backend_state : BackendState;
  http_state : HTTPState;
  trace : list Event;
}.

(** A method of the controller: it runs on the controller's state, returns
    or raises, and leaves a state behind in both cases. *)
Definition M (A : Type) : Type := Controller → Outcome A * Controller.

#[local] Instance M_ret : MRet M := λ A a c, (Return a, c).
#[local] Instance M_bind : MBind M := λ A B f m c,
  match m c with
  | (Return a, c') => f a c'
  | (Raise e, c') => (Raise e, c')
  end.

Definition raise {A} (e : Exn) : M A := λ c, (Raise e, c).

(** [try: body except Exception as e: handler(e)] *)
Definition try_except {A} (body : M A) (handler : Exn → M A) : M A := λ c,
  match body c with
  | (Return a, c') => (Return a, c')
  | (Raise e, c') => handler e c'
  end.

Definition emit (ev : Event) : M unit := λ c,
  (Return tt,
   {| endpoint_state := endpoint_state c; backend_state := backend_state c;
      http_state := http_state c; trace := trace c ++ [ev] |}).

(** [async with self.write_lock: body]; the lock is released when the body
    raises as well. *)
Definition with_write_lock {A} (body : M A) : M A := λ c,
  match emit LockAcquired c with
  | (_, c1) =>
      match body c1 with
      | (r, c2) => (r, (emit LockReleased c2).2)
      end
  end.

Definition read_endpoint_state {A} (f : EndpointState → A) : M A := λ c,
  (Return (f (endpoint_state c)), c).

Definition read_backend_state {A} (f : BackendState → A) : M A := λ c,
  (Return (f (backend_state c)), c).

Definition write_endpoint_state (f : EndpointState → EndpointState) : M unit := λ c,
  (Return tt,
   {| endpoint_state := f (endpoint_state c); backend_state := backend_state c;
      http_state := http_state c; trace := trace c |}).

Definition call_backend_state {A} (f : BackendState → A * BackendState) : M A := λ c,
  (Return (f (backend_state c)).1,
   {| endpoint_state := endpoint_state c; backend_state := (f (backend_state c)).2;
      http_state := http_state c; trace := trace c |}).

(** A call that returns nothing and may raise, on Workload State. *)
Definition try_backend_state (f : BackendState → option Exn * BackendState) : M unit := λ c,
  let c' := {| endpoint_state := endpoint_state c; backend_state := (f (backend_state c)).2;
               http_state := http_state c; trace := trace c |} in
  match (f (backend_state c)).1 with
  | None => (Return tt, c')
  | Some e => (Raise e, c')
  end.

(** The same on HTTP Fleet State. *)
Definition try_http_state (f : HTTPState → option Exn * HTTPState) : M unit := λ c,
  let c' := {| endpoint_state := endpoint_state c; backend_state := backend_state c;
               http_state := (f (http_state c)).2; trace := trace c |} in
  match (f (http_state c)).1 with
  | None => (Return tt, c')
  | Some e => (Raise e, c')
  end.

(** [await self.http_state.ensure_http_route_exists(endpoint, timeout_s)] *)
Definition ensure_http_route_exists (endpoint : EndpointTag) (timeout_s : Z) : M unit :=
  emit (AwaitedRoute endpoint timeout_s);;
  try_http_state (HTTPState_ensure_http_route_exists endpoint timeout_s).

(** [await asyncio.sleep(seconds)] *)
Definition asyncio_sleep (seconds : float) : M unit := emit (Slept seconds).

Definition logger_info (r : LogRecord) : M unit := emit (LoggedInfo r).
Definition logger_error (r : LogRecord) : M unit := emit (LoggedError r).

(** ** The preemption pipeline *)

(** The locals of [_handle_warning] that its loops update. *)
Record WarningLocals := {
  target_backends : list (BackendTag * Z);
  target_actors : list ActorHandle;
  mock_variable : bool;
}.

(** [_actor_handle_matches_node]: the source cannot tell the node of an
    actor handle yet and returns its third argument. *)
Definition _actor_handle_matches_node (node_ip : string) (actor_handle : ActorHandle)
    (mock_variable : bool) : bool :=
  mock_variable.

(** [d[k] += n] on a local dictionary; a missing key is a [KeyError]. *)
Definition dict_iadd (k : string) (n : Z) (d : list (string * Z)) : M (list (string * Z)) :=
  match PyDict.get k d with
  | Some v => mret (PyDict.set k (v + n) d)
  | None => raise (KeyError k)
  end.

(** The body of the inner loop of [_handle_warning]. *)
Definition _handle_warning_replica (node_ip : string) (backend : BackendTag)
    (actor_handle : ActorHandle) (l : WarningLocals) : M WarningLocals :=
  if _actor_handle_matches_node node_ip actor_handle (mock_variable l) then
    let tb := if PyDict.mem backend (target_backends l)
              then target_backends l
              else PyDict.set backend 0 (target_backends l) in
    tb' ← dict_iadd backend 1 tb;
    mret {| target_backends := tb';
            target_actors := target_actors l ++ [actor_handle];
            mock_variable := false |}
  else mret l.

(** [for tag, actor_handle in pair.items(): ...] *)
Fixpoint _handle_warning_pair (node_ip : string) (backend : BackendTag)
    (pair_ : list (ReplicaTag * ActorHandle)) (l : WarningLocals) : M WarningLocals :=
  match pair_ with
  | [] => mret l
  | (tag, actor_handle) :: rest =>
      l' ← _handle_warning_replica node_ip backend actor_handle l;
      _handle_warning_pair node_ip backend rest l'
  end.

(** [for backend, pair in self._all_replica_handles().items(): ...] *)
Fixpoint _handle_warning_scan (node_ip : string)
    (handles : list (BackendTag * list (ReplicaTag * ActorHandle)))
    (l : WarningLocals) : M WarningLocals :=
  match handles with
  | [] => mret l
  | (backend, pair_) :: handles' =>
      l' ← _handle_warning_pair node_ip backend pair_ l;
      _handle_warning_scan node_ip handles' l'
  end.

(** Modelled from the spec: the target replica counts of Workload State.
    [BackendState._target_replicas] is declared in ray/serve/backend_state.py,
    which is not among the sources.  The spec gives Workload State a
    target-replica-count adjustment and names no failure for it: a backend
    without a recorded count has count 0, and an adjustment records the new
    count (the dictionary is a [defaultdict(int)]). *)
Definition target_replica_count (t : gmap BackendTag Z) (backend : BackendTag) : Z :=
  default 0 (t !! backend).

(** Modelled from the spec: [self.backend_state._target_replicas[backend] += n],
    the statement of [_handle_warning], on the counts above: it reads the
    count ([0] for a backend without one), records the sum and never raises. *)
Definition target_replicas_iadd (backend : BackendTag) (n : Z) : M unit := λ c,
  (Return tt,
   {| endpoint_state := endpoint_state c;
      backend_state :=
        set_target_replicas
          (<[backend := target_replica_count (_target_replicas (backend_state c)) backend + n]>
             (_target_replicas (backend_state c)))
          (backend_state c);
      http_state := http_state c; trace := trace c |}).

(** Modelled from the spec: [self.backend_state._target_replicas[backend] -= n],
    the statement of [_rescale_after_warning_expires], on the counts above: it
    reads the count ([0] for a backend without one), records the difference
    and never raises. *)
Definition target_replicas_isub (backend : BackendTag) (n : Z) : M unit := λ c,
  (Return tt,
   {| endpoint_state := endpoint_state c;
      backend_state :=
        set_target_replicas
          (<[backend := target_replica_count (_target_replicas (backend_state c)) backend - n]>
             (_target_replicas (backend_state c)))
          (backend_state c);
      http_state := http_state c; trace := trace c |}).

(** [for target_backend, num_replicas in target_backends.items():
       self.backend_state._target_replicas[target_backend] += num_replicas] *)
Fixpoint _handle_warning_rescale (target_backends : list (BackendTag * Z)) : M unit :=
  match target_backends with
  | [] => mret tt
  | (target_backend, num_replicas) :: rest =>
      target_replicas_iadd target_backend num_replicas;;
      _handle_warning_rescale rest
  end.

Definition Timer_start (interval : float) (callback : TimerCallback) : M unit :=
  emit (TimerStarted interval callback).

Definition _all_replica_handles : M (list (BackendTag * list (ReplicaTag * ActorHandle))) :=
  read_backend_state running_replica_handles.

Definition _handle_warning (node_ip : string) (time_left : float) : M unit :=
  handles ← _all_replica_handles;
  l ← _handle_warning_scan node_ip handles
         {| target_backends := []; target_actors := []; mock_variable := true |};
  _handle_warning_rescale (target_backends l);;
  (* Drain Queries 5 seconds before shutdown *)
  Timer_start (PrimFloat.sub time_left 5%float)
    (GracefulShutdownBeforeShutoff (target_actors l));;
  (* Rescale number of replicas after warning has expired *)
  Timer_start time_left (RescaleAfterWarningExpires (target_backends l)).

Fixpoint _graceful_shutdown_before_shutoff (target_actors : list ActorHandle) : M unit :=
  match target_actors with
  | [] => mret tt
  | actor_handle :: rest =>
      emit (DrainRequested actor_handle);;
      _graceful_shutdown_before_shutoff rest
  end.

Fixpoint _rescale_after_warning_expires (target_backends : list (BackendTag * Z)) : M unit :=
  match target_backends with
  | [] => mret tt
  | (target_backend, num_replicas) :: rest =>
      target_replicas_isub target_backend num_replicas;;
      _rescale_after_warning_expires rest
  end.

(** What a started timer does when its interval has passed. *)
Definition Timer_fire (callback : TimerCallback) : M unit :=
  match callback with
  | GracefulShutdownBeforeShutoff target_actors =>
      _graceful_shutdown_before_shutoff target_actors
  | RescaleAfterWarningExpires target_backends =>
      _rescale_after_warning_expires target_backends
  end.

(** ** The control loop *)

(** One iteration of [while True] in [run_control_loop]. *)
Definition run_control_loop_iteration : M unit :=
  with_write_lock (
    try_except (try_http_state HTTPState_update)
      (λ e, logger_error (ExceptionUpdatingHTTPState e));;
    try_except (try_backend_state BackendState_update)
      (λ e, logger_error (ExceptionUpdatingBackendState e)));;
  asyncio_sleep CONTROL_LOOP_PERIOD_S.

(** The first [iterations] iterations of the loop, which has no exit. *)
Fixpoint run_control_loop (iterations : nat) : M unit :=
  match iterations with
  | O => mret tt
  | S n => run_control_loop_iteration;; run_control_loop n
  end.

(** ** Request handlers *)

Definition get_backend (backend_tag : BackendTag) : M (option BackendInfo) :=
  read_backend_state (BackendState_get_backend backend_tag).

Fixpoint _validate_traffic_dict (traffic_dict : list (BackendTag * float)) : M unit :=
  match traffic_dict with
  | [] => mret tt
  | (backend, _) :: rest =>
      info ← get_backend backend;
      match info with
      | None =>
          raise (ValueError ("Attempted to assign traffic to a backend '" +:+ backend
                             +:+ "' that is not registered."))
      | Some _ => _validate_traffic_dict rest
      end
  end.

(** Create a new endpoint with the specified route and methods. *)
Definition create_endpoint (endpoint : EndpointTag) (traffic_dict : list (BackendTag * float))
    (route : option string) (methods : gset string) : M unit :=
  with_write_lock (
    _validate_traffic_dict traffic_dict;;
    logger_info (RegisteringRoute route endpoint methods);;
    write_endpoint_state
      (EndpointState_create_endpoint endpoint
         {| http_methods := methods; route := route;
            python_methods := None; legacy := None |}
         (TrafficPolicy_init traffic_dict)));;
  ensure_http_route_exists endpoint 30.

(** Delete the specified endpoint.  Does not modify any corresponding
    backends. *)
Definition delete_endpoint (endpoint : EndpointTag) : M unit :=
  logger_info (DeletingEndpoint endpoint);;
  with_write_lock (write_endpoint_state (EndpointState_delete_endpoint endpoint)).

(** Register a new backend under the specified tag. *)
Definition create_backend (backend_tag : BackendTag) (backend_config : BackendConfig)
    (replica_config : ReplicaConfig) : M (option GoalId) :=
  with_write_lock (
    let backend_info :=
      {| worker_class := create_backend_replica (backend_def replica_config);
         version := Some RESERVED_VERSION_TAG;
         backend_config := backend_config;
         replica_config := replica_config |} in
    call_backend_state (BackendState_deploy_backend backend_tag backend_info)).

(** The loop of [delete_backend]: check that the specified backend isn't
    used by any endpoints. *)
Fixpoint delete_backend_check (backend_tag : BackendTag)
    (endpoints : list (EndpointTag * EndpointView)) : M unit :=
  match endpoints with
  | [] => mret tt
  | (endpoint, info) :: rest =>
      if PyDict.mem backend_tag (view_traffic info)
         || PyDict.mem backend_tag (view_shadows info)
      then raise (ValueError ("Backend '" +:+ backend_tag +:+ "' is used by endpoint '"
                              +:+ endpoint +:+ "' and cannot be deleted. Please remove "
                              +:+ "the backend from all endpoints and try "
                              +:+ "again."))
      else delete_backend_check backend_tag rest
  end.

Definition delete_backend (backend_tag : BackendTag) (force_kill : bool) : M (option GoalId) :=
  with_write_lock (
    endpoints ← read_endpoint_state EndpointState_get_endpoints;
    delete_backend_check backend_tag endpoints;;
    call_backend_state (BackendState_delete_backend backend_tag force_kill)).

(** Set the config for the specified backend. *)
Definition update_backend_config (backend_tag : BackendTag) (config_options : BackendConfig)
    : M (option GoalId) :=
  with_write_lock (
    existing_info ← get_backend backend_tag;
    match existing_info with
    | None => raise (ValueError ("Backend " +:+ backend_tag +:+ " is not registered."))
    | Some existing_info =>
        let backend_info :=
          {| worker_class := worker_class existing_info;
             version := version existing_info;
             backend_config :=
               BackendConfig_copy (backend_config existing_info)
                 (BackendConfig_dict_exclude_unset config_options);
             replica_config := replica_config existing_info |} in
        call_backend_state (BackendState_deploy_backend backend_tag backend_info)
    end).

(** [assert cond] *)
Definition assert_ (cond : bool) : M unit :=
  if cond then mret tt else raise AssertionError.

(** [str.startswith] *)
Definition startswith (s p : string) : bool := String.prefix p s.

Definition deploy (name : string) (backend_config : BackendConfig)
    (replica_config : ReplicaConfig) (version : option string)
    (route_prefix : option string) : M (option GoalId) :=
  match route_prefix with
  | Some route_prefix => assert_ (startswith route_prefix "/")
  | None => mret tt
  end;;
  let python_methods :=
    match backend_def replica_config with
    | ClassDef function_members => function_members
    | CallableDef => []
    end in
  with_write_lock (
    let backend_info :=
      {| worker_class := create_backend_replica (backend_def replica_config);
         version := version;
         backend_config := backend_config;
         replica_config := replica_config |} in
    goal_id ← call_backend_state (BackendState_deploy_backend name backend_info);
    let endpoint_info :=
      {| http_methods := ALL_HTTP_METHODS; route := route_prefix;
         python_methods := Some python_methods; legacy := Some false |} in
    write_endpoint_state
      (EndpointState_update_endpoint name endpoint_info
         (TrafficPolicy_init [(name, 1%float)]));;
    mret goal_id).

Definition delete_deployment (name : string) : M (option GoalId) :=
  write_endpoint_state (EndpointState_delete_endpoint name);;
  call_backend_state (BackendState_delete_backend name false).

(** Get the current information about a deployment: (BackendInfo, route).
    Raises KeyError if the deployment doesn't exist. *)
Definition get_deployment_info (name : string) : M (BackendInfo * option string) :=
  backend_info ← get_backend name;
  match backend_info with
  | None => raise (KeyError ("Deployment " +:+ name +:+ " does not exist."))
  | Some backend_info =>
      route ← read_endpoint_state (EndpointState_get_endpoint_route name);
      mret (backend_info, route)
  end.

(** ** Predicates of the specification *)

(** A traffic policy references a backend: the backend is a key of its
    traffic split or of its shadow list. *)
Definition references (policy : TrafficPolicy) (backend_tag : BackendTag) : Prop :=
  backend_tag ∈ (traffic_dict policy).*1 ∨ backend_tag ∈ (shadow_dict policy).*1.

(** Some endpoint of Routing State references the backend. *)
Definition backend_in_use (es : EndpointState) (backend_tag : BackendTag) : Prop :=
  Exists (λ e, references e.2.2 backend_tag) es.

(** The backend is registered in Workload State. *)
Definition registered (bs : BackendState) (backend_tag : BackendTag) : Prop :=
  is_Some (backends bs !! backend_tag).

Definition endpoint_exists (es : EndpointState) (endpoint : EndpointTag) : Prop :=
  endpoint ∈ es.*1.

#[global] Instance references_dec policy backend_tag : Decision (references policy backend_tag).
Proof. unfold references. apply _. Defined.

#[global] Instance backend_in_use_dec es backend_tag : Decision (backend_in_use es backend_tag).
Proof. unfold backend_in_use. apply _. Defined.

#[global] Instance registered_dec bs backend_tag : Decision (registered bs backend_tag).
Proof. unfold registered. apply _. Defined.

#[global] Instance endpoint_exists_dec es endpoint : Decision (endpoint_exists es endpoint).
Proof. unfold endpoint_exists. apply _. Defined.

(** The error record a control-loop iteration leaves in the log for the
    answer [r] of a reconcile call. *)
Definition logged_failure (record : Exn → LogRecord) (r : option Exn) : list Event :=
  match r with
  | Some e => [LoggedError (record e)]
  | None => []
  end.

(** How many times the loop went to sleep. *)
Fixpoint sleeps (tr : list Event) : nat :=
  match tr with
  | [] => O
  | Slept _ :: tr' => S (sleeps tr')
  | _ :: tr' => sleeps tr'
  end.

(** The amount [target_backends] holds for a backend (over all its items). *)
Fixpoint total (target_backends : list (BackendTag * Z)) (backend : BackendTag) : Z :=
  match target_backends with
  | [] => 0
  | (k, n) :: rest => (if decide (k = backend) then n else 0) + total rest backend
  end.

(** The controller with the target replica counts replaced. *)
Definition with_target_replicas (t : gmap BackendTag Z) (c : Controller) : Controller :=
  {| endpoint_state := endpoint_state c;
     backend_state := set_target_replicas t (backend_state c);
     http_state := http_state c;
     trace := trace c |}.

(** The first replica handle in the iteration order of
    [get_running_replica_handles()], with its backend. *)
Fixpoint first_replica (handles : list (BackendTag * list (ReplicaTag * ActorHandle)))
    : option (BackendTag * ActorHandle) :=
  match handles with
  | [] => None
  | (backend, []) :: rest => first_replica rest
  | (backend, (_, actor_handle) :: _) :: _ => Some (backend, actor_handle)
  end.

(** The replicas of a backend that run on the node, as Workload State
    knows them. *)
Definition replicas_on_node (node_ip : string) (pair_ : list (ReplicaTag * ActorHandle))
    : list ActorHandle :=
  filter (λ h, actor_node_ip h = node_ip) pair_.*2.

End Controller.

(** ** A concrete serving system

    The collaborators are instantiated: a replica configuration is its
    backend definition, wrapping it changes nothing, config values are
    integers, the proxy fleet counts its reconciles, every reconcile raises,
    and every wait for a route times out. *)
Module Scenario.

Definition backend_def (rc : BackendDef) : BackendDef := rc.
Definition create_backend_replica (d : BackendDef) : BackendDef := d.
Definition ALL_HTTP_METHODS : gset string := {["GET"; "POST"]}.

Definition BackendState_update (bs : @BackendState BackendDef BackendDef Z)
    : option Exn * @BackendState BackendDef BackendDef Z :=
  (Some (OtherException "RuntimeError" "replica failed to start"), bs).
Definition HTTPState_update (h : nat) : option Exn * nat :=
  (Some (OtherException "RuntimeError" "proxy unreachable"), S h).
Definition HTTPState_ensure_http_route_exists (endpoint : string) (timeout_s : Z) (h : nat)
    : option Exn * nat :=
  (Some (OtherException "TimeoutError" endpoint), h).

Definition config (num_replicas : Z) : @BackendConfig Z :=
  {| field_values := {["num_replicas" := num_replicas; "max_concurrent_queries" := 100]};
     fields_set := {["num_replicas"]} |}.

(** A controller that has just started. *)
Definition started : @Controller BackendDef BackendDef Z nat :=
  {| endpoint_state := [];
     backend_state := {| backends := ∅; _target_replicas := ∅;
                         running_replica_handles := []; goals_created := 0 |};
     http_state := 0%nat;
     trace := [] |}.

(** The controller after [deploy("d", config, replica_config, "v1", "/d")]. *)
Definition deployed : @Controller BackendDef BackendDef Z nat :=
  (deploy backend_def create_backend_replica ALL_HTTP_METHODS
     "d" (config 3) (ClassDef ["__call__"]) (Some "v1") (Some "/d") started).2.

Definition replica (n : string) : ReplicaTag * ActorHandle :=
  ("B#" +:+ n, {| actor_name := "B#" +:+ n; actor_node_ip := "10.0.0.1" |}).

(** Backend B runs three replicas, all on node 10.0.0.1, and its target
    replica count is 3. *)
Definition three_replicas : @Controller BackendDef BackendDef Z nat :=
  {| endpoint_state := [];
     backend_state :=
       {| backends := {["B" := {| worker_class := CallableDef; version := None;
                                  backend_config := config 3;
                                  replica_config := CallableDef |}]};
          _target_replicas := {["B" := 3]};
          running_replica_handles := [("B", [replica "1"; replica "2"; replica "3"])];
          goals_created := 1 |};
     http_state := 0%nat;
     trace := [] |}.

End Scenario.

(** ** The rest of the controller's interface *)
Section ControllerInterface.

Context {WorkerClass ReplicaConfig FieldValue HTTPState : Type}.
Variable backend_def : ReplicaConfig → BackendDef.
Variable create_backend_replica : BackendDef → WorkerClass.
Variable ALL_HTTP_METHODS : gset string.
Variable RESERVED_VERSION_TAG : string.
Variable HTTPState_ensure_http_route_exists :
  EndpointTag → Z → HTTPState → option Exn * HTTPState.

#[local] Existing Instance M_ret.
#[local] Existing Instance M_bind.

Local Abbreviation Ctl := (@Controller WorkerClass ReplicaConfig FieldValue HTTPState).
Local Abbreviation Method := (@M WorkerClass ReplicaConfig FieldValue HTTPState).

(** Modelled from the spec: [BackendState.get_backend_configs], the mapping
    of every registered backend tag to its config. *)
Definition BackendState_get_backend_configs
    (bs : @BackendState WorkerClass ReplicaConfig FieldValue)
    : gmap BackendTag (@BackendConfig FieldValue) :=
  backend_config <$> backends bs.

(** Returns a dictionary of backend tag to backend config. *)
Definition get_all_backends : Method (gmap BackendTag (@BackendConfig FieldValue)) :=
  read_backend_state BackendState_get_backend_configs.

(** [get_all_endpoints]: what [endpoint_state.get_endpoints()] returns. *)
Definition get_all_endpoints : Method (list (EndpointTag * EndpointView)) :=
  read_endpoint_state EndpointState_get_endpoints.

(** Get the current config for the specified backend.  The source looks the
    backend up twice; [None.backend_config] would be an [AttributeError]. *)
Definition get_backend_config (backend_tag : BackendTag)
    : Method (@BackendConfig FieldValue) :=
  info ← get_backend backend_tag;
  match info with
  | None => raise (ValueError ("Backend " +:+ backend_tag +:+ " is not registered."))
  | Some _ =>
      info' ← get_backend backend_tag;
      match info' with
      | Some backend_info => mret (backend_config backend_info)
      | None =>
          raise (OtherException "AttributeError"
                   "'NoneType' object has no attribute 'backend_config'")
      end
  end.

(** Gets the current information about all active deployments: the
    dictionary comprehension over the names of [get_backend_configs()].  The
    result is a dictionary; the order of its items is not modelled. *)
Definition list_deployments
    : Method (gmap string (option (@BackendInfo WorkerClass ReplicaConfig FieldValue)
                           * option string)) := λ c,
  (Return (map_imap (λ name _,
                       Some (BackendState_get_backend name (backend_state c),
                             EndpointState_get_endpoint_route name (endpoint_state c)))
                    (BackendState_get_backend_configs (backend_state c))),
   c).

(** A state-changing call a client makes.  [delete_deployment], which makes
    no check, and the calls whose Routing State operations are not among the
    sources ([set_traffic], [shadow_traffic]) are left out. *)
Inductive Request :=
| CreateEndpoint (endpoint : EndpointTag) (traffic_dict : list (BackendTag * float))
    (route : option string) (methods : gset string)
| DeleteEndpoint (endpoint : EndpointTag)
| CreateBackend (backend_tag : BackendTag) (backend_config : @BackendConfig FieldValue)
    (replica_config : ReplicaConfig)
| DeleteBackend (backend_tag : BackendTag) (force_kill : bool)
| UpdateBackendConfig (backend_tag : BackendTag) (config_options : @BackendConfig FieldValue)
| Deploy (name : string) (backend_config : @BackendConfig FieldValue)
    (replica_config : ReplicaConfig) (version : option string) (route_prefix : option string).

(** The controller after it has handled the call, whether the call returned
    or raised. *)
Definition handle (r : Request) (c : Ctl) : Ctl :=
  match r with
  | CreateEndpoint endpoint traffic_dict route methods =>
      (create_endpoint HTTPState_ensure_http_route_exists
         endpoint traffic_dict route methods c).2
  | DeleteEndpoint endpoint => (delete_endpoint endpoint c).2
  | CreateBackend backend_tag backend_config replica_config =>
      (create_backend backend_def create_backend_replica RESERVED_VERSION_TAG
         backend_tag backend_config replica_config c).2
  | DeleteBackend backend_tag force_kill => (delete_backend backend_tag force_kill c).2
  | UpdateBackendConfig backend_tag config_options =>
      (update_backend_config backend_tag config_options c).2
  | Deploy name backend_config replica_config version route_prefix =>
      (deploy backend_def create_backend_replica ALL_HTTP_METHODS
         name backend_config replica_config version route_prefix c).2
  end.

(** The controller after a sequence of calls, one after the other. *)
Definition handle_all (rs : list Request) (c : Ctl) : Ctl :=
  foldl (λ c r, handle r c) c rs.

(** Every backend that a traffic policy or shadow list of the Routing State
    [es] names is registered in the Workload State [bs]. *)
Definition integrity_of (es : EndpointState)
    (bs : @BackendState WorkerClass ReplicaConfig FieldValue) : Prop :=
  Forall (λ e, Forall (registered bs) ((traffic_dict e.2.2).*1 ++ (shadow_dict e.2.2).*1)) es.

(** The same for the two components of a controller. *)
Definition referential_integrity (c : Ctl) : Prop :=
  integrity_of (endpoint_state c) (backend_state c).

#[global] Instance referential_integrity_dec c : Decision (referential_integrity c).
Proof. unfold referential_integrity, integrity_of. apply _. Defined.

End ControllerInterface.

(** ** Calls on the concrete serving system *)
Module InterfaceScenario.
Import Scenario.

Definition RESERVED_VERSION_TAG : string := "__serve_version__".

(** What [deploy] registered for the deployment [d]. *)
Definition deployed_info : @BackendInfo BackendDef BackendDef Z :=
  {| worker_class := ClassDef ["__call__"]; version := Some "v1";
     backend_config := config 3; replica_config := ClassDef ["__call__"] |}.

(** The deployment [d] with a second endpoint, [foo], that routes to its
    backend: the controller after [deploy("d", ...)] and
    [create_endpoint("foo", {"d": 1.0}, "/foo", {"GET"})]. *)
Definition routed_twice : @Controller BackendDef BackendDef Z nat :=
  (create_endpoint HTTPState_ensure_http_route_exists
     "foo" [("d", 1%float)] (Some "/foo") {["GET"]} deployed).2.

(** Options that set no field: every value is a default. *)
Definition default_options : @BackendConfig Z :=
  {| field_values := {["num_replicas" := 1; "max_concurrent_queries" := 100]};
     fields_set := ∅ |}.

(** A client session: calls that succeed mixed with calls that are refused
    (a backend in use, a route prefix without its slash, a tag and a backend
    that are not registered). *)
Definition session : list (@Request BackendDef Z) :=
  [CreateBackend "b1" (config 2) CallableDef;
   CreateEndpoint "foo" [("b1", 1%float)] (Some "/foo") {["GET"]};
   DeleteBackend "b1" false;
   CreateEndpoint "bar" [("b1", 0.5%float); ("b2", 0.5%float)] None {["GET"]};
   UpdateBackendConfig "b2" default_options;
   Deploy "e" (config 1) CallableDef None (Some "e");
   DeleteEndpoint "foo";
   DeleteBackend "b1" true;
   UpdateBackendConfig "d" default_options].

End InterfaceScenario.

(** * Proofs *)

(** ** Facts about the dictionaries *)
Module PyDictFacts.
Import PyDict.
Section Dict.
Context {K V : Type} `{EqDecision K}.
Implicit Types (k : K) (v : V) (d : list (K * V)).

Lemma mem_true k d : mem k d = true ↔ k ∈ d.*1.
Proof. unfold mem. apply bool_decide_eq_true. Qed.

Lemma mem_false k d : mem k d = false ↔ k ∉ d.*1.
Proof. unfold mem. apply bool_decide_eq_false. Qed.

Lemma get_None k d : get k d = None ↔ k ∉ d.*1.
Proof.
  induction d as [|[k' v] d IH]; simpl.
  - split; [intros _; apply not_elem_of_nil | done].
  - rewrite not_elem_of_cons. destruct (decide (k = k')) as [->|Hne].
    + split; [done | by intros [? _]].
    + rewrite IH. split; [by intros ? | by intros [_ ?]].
Qed.

Lemma get_is_Some k d : is_Some (get k d) ↔ k ∈ d.*1.
Proof.
  rewrite <- not_eq_None_Some, get_None. split.
  - intros Hnn. by destruct (decide (k ∈ d.*1)) as [Hin|Hout]; [|destruct (Hnn Hout)].
  - intros Hin Hout. by apply Hout.
Qed.

Lemma get_set_eq k v d : get k (set k v d) = Some v.
Proof.
  induction d as [|[k' v'] d IH]; simpl.
  - by rewrite decide_True.
  - destruct (decide (k = k')) as [->|Hne]; simpl.
    + by rewrite decide_True.
    + by rewrite decide_False.
Qed.

Lemma get_set_ne k k' v d : k ≠ k' → get k' (set k v d) = get k' d.
Proof.
  intros Hne. induction d as [|[k0 v0] d IH]; simpl.
  - by rewrite decide_False.
  - destruct (decide (k = k0)) as [->|Hk0]; simpl.
    + by rewrite !decide_False.
    + by rewrite IH.
Qed.

Lemma keys_set k v d : k ∈ (set k v d).*1.
Proof. apply get_is_Some. rewrite get_set_eq. by eexists. Qed.

Lemma keys_del k d : k ∉ (del k d).*1.
Proof.
  induction d as [|[k' v'] d IH]; simpl.
  - apply not_elem_of_nil.
  - destruct (decide (k = k')); [done|].
    simpl. rewrite not_elem_of_cons. done.
Qed.

Lemma elem_of_del k (x : K * V) d : x ∈ del k d ↔ x ∈ d ∧ x.1 ≠ k.
Proof.
  induction d as [|[k0 v0] d IH]; simpl.
  - split; [intros H0; by apply elem_of_nil in H0 | intros [H0 _]; by apply elem_of_nil in H0].
  - destruct (decide (k = k0)) as [->|Hk0].
    + rewrite IH, elem_of_cons. split.
      * intros [? ?]. split; [by right | done].
      * intros [[->|?] ?]; [done | by split].
    + rewrite !elem_of_cons, IH. split.
      * intros [->|[? ?]]; (split; [auto|]); [simpl; congruence | done].
      * intros [[->|?] ?]; [by left | right; by split].
Qed.

End Dict.
End PyDictFacts.

(** ** Facts about the controller *)
Section ControllerFacts.

Context {WorkerClass ReplicaConfig FieldValue HTTPState : Type}.
Variable backend_def : ReplicaConfig → BackendDef.
Variable create_backend_replica : BackendDef → WorkerClass.
Variable ALL_HTTP_METHODS : gset string.
Variable BackendState_update :
  @BackendState WorkerClass ReplicaConfig FieldValue
  → option Exn * @BackendState WorkerClass ReplicaConfig FieldValue.
Variable HTTPState_update : HTTPState → option Exn * HTTPState.
Variable HTTPState_ensure_http_route_exists :
  EndpointTag → Z → HTTPState → option Exn * HTTPState.

Implicit Types c : @Controller WorkerClass ReplicaConfig FieldValue HTTPState.
Implicit Types config_options existing options : @BackendConfig FieldValue.

#[local] Arguments BackendConfig_copy : simpl never.
#[local] Arguments BackendConfig_dict_exclude_unset : simpl never.


Ltac unfold_M :=
  unfold mbind, M_bind, mret, M_ret, raise, try_except, with_write_lock,
    logger_info, logger_error, asyncio_sleep, emit, read_endpoint_state, read_backend_state,
    write_endpoint_state, call_backend_state, try_backend_state, try_http_state in *.

Lemma delete_backend_check_in_use backend_tag (es : EndpointState) c :
  backend_in_use es backend_tag →
  ∃ endpoint,
    endpoint_exists es endpoint ∧
    delete_backend_check backend_tag (EndpointState_get_endpoints es) c
    = (Raise (ValueError ("Backend '" +:+ backend_tag +:+ "' is used by endpoint '"
                          +:+ endpoint +:+ "' and cannot be deleted. Please remove "
                          +:+ "the backend from all endpoints and try "
                          +:+ "again.")), c).
Proof.
  unfold backend_in_use, endpoint_exists.
  induction es as [|[endpoint [info policy]] es IH]; intros Hex.
  - by apply Exists_nil in Hex.
  - cbn [EndpointState_get_endpoints fmap list_fmap prod_map delete_backend_check
         endpoint_view view_traffic view_shadows fst snd id].
    destruct (PyDict.mem backend_tag (traffic_dict policy)
              || PyDict.mem backend_tag (shadow_dict policy)) eqn:Hmem.
    + exists endpoint. split; [apply elem_of_cons; by left | done].
    + apply orb_false_iff in Hmem as [Ht Hs].
      apply PyDictFacts.mem_false in Ht, Hs.
      apply Exists_cons in Hex as [[?|?]|Hex]; [done|done|].
      destruct (IH Hex) as (endpoint' & Hin & Heq).
      exists endpoint'. split; [apply elem_of_cons; by right | exact Heq].
Qed.

Lemma delete_backend_check_unused backend_tag (es : EndpointState) c :
  ¬ backend_in_use es backend_tag →
  delete_backend_check backend_tag (EndpointState_get_endpoints es) c = (Return tt, c).
Proof.
  unfold backend_in_use.
  induction es as [|[endpoint [info policy]] es IH]; intros Hno; [done|].
  cbn [EndpointState_get_endpoints fmap list_fmap prod_map delete_backend_check
       endpoint_view view_traffic view_shadows fst snd id].
  rewrite Exists_cons in Hno.
  destruct (PyDict.mem backend_tag (traffic_dict policy)) eqn:Ht.
  { apply PyDictFacts.mem_true in Ht. exfalso. apply Hno. left. by left. }
  destruct (PyDict.mem backend_tag (shadow_dict policy)) eqn:Hs.
  { apply PyDictFacts.mem_true in Hs. exfalso. apply Hno. left. by right. }
  simpl. apply IH. tauto.
Qed.

(** C1: whatever state earlier operations left behind, when some endpoint's
    traffic policy or shadow list references the backend, [delete_backend]
    raises [ValueError] (naming such an endpoint) and Routing State, Workload
    State and HTTP Fleet State are what they were; the call only took and
    released the write lock. *)
Theorem delete_backend_in_use_fails c backend_tag force_kill :
  backend_in_use (endpoint_state c) backend_tag →
  ∃ endpoint c',
    delete_backend backend_tag force_kill c
    = (Raise (ValueError ("Backend '" +:+ backend_tag +:+ "' is used by endpoint '"
                          +:+ endpoint +:+ "' and cannot be deleted. Please remove "
                          +:+ "the backend from all endpoints and try "
                          +:+ "again.")), c') ∧
    endpoint_exists (endpoint_state c) endpoint ∧
    endpoint_state c' = endpoint_state c ∧
    backend_state c' = backend_state c ∧
    http_state c' = http_state c ∧
    trace c' = trace c ++ [LockAcquired; LockReleased].
Proof.
  intros Huse. unfold delete_backend. unfold_M. simpl.
  match goal with
  | |- context [delete_backend_check _ _ ?c1] =>
      destruct (delete_backend_check_in_use backend_tag (endpoint_state c) c1 Huse)
        as (endpoint & Hin & Heq)
  end.
  rewrite Heq. simpl. eexists endpoint, _. split; [reflexivity|].
  simpl. rewrite <- app_assoc. done.
Qed.

Lemma _validate_traffic_dict_unregistered (traffic_dict : list (BackendTag * float)) c :
  (∃ backend, backend ∈ traffic_dict.*1 ∧ ¬ registered (backend_state c) backend) →
  ∃ backend,
    backend ∈ traffic_dict.*1 ∧ ¬ registered (backend_state c) backend ∧
    _validate_traffic_dict traffic_dict c
    = (Raise (ValueError ("Attempted to assign traffic to a backend '" +:+ backend
                          +:+ "' that is not registered.")), c).
Proof.
  unfold registered.
  induction traffic_dict as [|[backend weight] rest IH]; intros (b & Hin & Hb).
  - by apply elem_of_nil in Hin.
  - cbn [_validate_traffic_dict]. unfold get_backend, BackendState_get_backend. unfold_M.
    destruct (backends (backend_state c) !! backend) as [info|] eqn:Hreg.
    + apply elem_of_cons in Hin as [->|Hin].
      { exfalso. apply Hb. simpl. by rewrite Hreg. }
      destruct IH as (b' & Hin' & Hb' & Heq); [by exists b|].
      exists b'. split; [apply elem_of_cons; by right|]. done.
    + exists backend. split; [apply elem_of_cons; by left|].
      split; [|done]. rewrite Hreg. by intros [? ?].
Qed.

Lemma _validate_traffic_dict_registered (traffic_dict : list (BackendTag * float)) c :
  (∀ backend, backend ∈ traffic_dict.*1 → registered (backend_state c) backend) →
  _validate_traffic_dict traffic_dict c = (Return tt, c).
Proof.
  unfold registered.
  induction traffic_dict as [|[backend weight] rest IH]; intros Hall; [done|].
  cbn [_validate_traffic_dict]. unfold get_backend, BackendState_get_backend. unfold_M.
  destruct (Hall backend) as [info Hreg]; [apply elem_of_cons; by left|].
  rewrite Hreg. apply IH. intros b Hb. apply Hall. apply elem_of_cons. by right.
Qed.

(** C4: when [traffic_dict] names a backend that is not registered,
    [create_endpoint] raises [ValueError] for such a backend while it holds
    the lock, before any change: Routing State, Workload State and HTTP Fleet
    State are what they were (the route wait did not start), so an endpoint
    name that was free is still free. *)
Theorem create_endpoint_unregistered_fails c endpoint traffic_dict route methods :
  (∃ backend, backend ∈ traffic_dict.*1 ∧ ¬ registered (backend_state c) backend) →
  ∃ backend c',
    create_endpoint HTTPState_ensure_http_route_exists endpoint traffic_dict route methods c
    = (Raise (ValueError ("Attempted to assign traffic to a backend '" +:+ backend
                          +:+ "' that is not registered.")), c') ∧
    backend ∈ traffic_dict.*1 ∧ ¬ registered (backend_state c) backend ∧
    endpoint_state c' = endpoint_state c ∧
    backend_state c' = backend_state c ∧
    http_state c' = http_state c ∧
    trace c' = trace c ++ [LockAcquired; LockReleased] ∧
    (¬ endpoint_exists (endpoint_state c) endpoint →
     ¬ endpoint_exists (endpoint_state c') endpoint).
Proof.
  intros Hun. unfold create_endpoint. unfold_M. simpl.
  match goal with
  | |- context [_validate_traffic_dict _ ?c1] =>
      destruct (_validate_traffic_dict_unregistered traffic_dict c1 Hun)
        as (backend & Hin & Hreg & Heq)
  end.
  rewrite Heq. simpl. eexists backend, _. split; [reflexivity|].
  simpl. rewrite <- app_assoc. done.
Qed.

(** C7: when every backend of [traffic_dict] is registered, [create_endpoint]
    records the endpoint while it holds the lock, releases the lock, and only
    then waits for the route, with the fixed timeout of 30 seconds.  Whatever
    the wait answers (an exception when it times out), the call ends with that
    answer and the endpoint is in Routing State with the route, methods and
    traffic policy it was created with. *)
Theorem create_endpoint_wait_keeps_endpoint c endpoint traffic_dict route methods :
  (∀ backend, backend ∈ traffic_dict.*1 → registered (backend_state c) backend) →
  ∃ c',
    create_endpoint HTTPState_ensure_http_route_exists endpoint traffic_dict route methods c
    = (match (HTTPState_ensure_http_route_exists endpoint 30 (http_state c)).1 with
       | None => Return tt
       | Some e => Raise e
       end, c') ∧
    endpoint_state c'
    = EndpointState_create_endpoint endpoint
        {| http_methods := methods; route := route;
           python_methods := None; legacy := None |}
        (TrafficPolicy_init traffic_dict) (endpoint_state c) ∧
    PyDict.get endpoint (endpoint_state c')
    = Some ({| http_methods := methods; route := route;
               python_methods := None; legacy := None |},
            TrafficPolicy_init traffic_dict) ∧
    endpoint_exists (endpoint_state c') endpoint ∧
    backend_state c' = backend_state c ∧
    http_state c' = (HTTPState_ensure_http_route_exists endpoint 30 (http_state c)).2 ∧
    trace c' = trace c ++ [LockAcquired;
                           LoggedInfo (RegisteringRoute route endpoint methods);
                           LockReleased;
                           AwaitedRoute endpoint 30] ∧
    lock_held false [LockAcquired;
                     LoggedInfo (RegisteringRoute route endpoint methods);
                     LockReleased] = false.
Proof.
  intros Hreg. unfold create_endpoint, ensure_http_route_exists. unfold_M. simpl.
  rewrite _validate_traffic_dict_registered by exact Hreg. simpl.
  destruct (HTTPState_ensure_http_route_exists endpoint 30 (http_state c)) as [[e|] h] eqn:Hw;
    simpl; eexists; (split; [reflexivity|]); simpl;
    unfold EndpointState_create_endpoint, endpoint_exists;
    rewrite PyDictFacts.get_set_eq, <- !app_assoc; simpl;
    (repeat split; try done; apply PyDictFacts.keys_set).
Qed.

(** The merge of pydantic: a field of the update wins, any other field keeps
    its value. *)
Lemma BackendConfig_copy_lookup existing options (f : string) :
  field_values (BackendConfig_copy existing (BackendConfig_dict_exclude_unset options)) !! f
  = match (if decide (f ∈ fields_set options) then field_values options !! f else None) with
    | Some v => Some v
    | None => field_values existing !! f
    end.
Proof.
  unfold BackendConfig_copy, BackendConfig_dict_exclude_unset. cbn [field_values].
  rewrite lookup_union, map_lookup_filter.
  destruct (decide (f ∈ fields_set options)) as [Hset|Hunset].
  - destruct (field_values options !! f) as [v|] eqn:Hv; simpl.
    + rewrite option_guard_True by done. simpl.
      by destruct (field_values existing !! f).
    + by destruct (field_values existing !! f).
  - destruct (field_values options !! f) as [v|] eqn:Hv; simpl.
    + rewrite option_guard_False by done. simpl.
      by destruct (field_values existing !! f).
    + by destruct (field_values existing !! f).
Qed.

(** C8: [update_backend_config] raises [ValueError] and changes nothing when
    the tag is not registered.  When it is, the call hands Workload State a
    [BackendInfo] to deploy under the tag, which is then the registered one:
    it has the worker class, version and replica config of the existing one,
    and in its config every field that [config_options] sets explicitly has
    the value from [config_options], every other field the existing value. *)
Theorem update_backend_config_merges c backend_tag config_options :
  match backends (backend_state c) !! backend_tag with
  | None =>
      ∃ c',
        update_backend_config backend_tag config_options c
        = (Raise (ValueError ("Backend " +:+ backend_tag +:+ " is not registered.")), c') ∧
        endpoint_state c' = endpoint_state c ∧
        backend_state c' = backend_state c ∧
        http_state c' = http_state c
  | Some existing_info =>
      ∃ goal_id backend_info c',
        update_backend_config backend_tag config_options c = (Return goal_id, c') ∧
        (goal_id, backend_state c')
        = BackendState_deploy_backend backend_tag backend_info (backend_state c) ∧
        backends (backend_state c') !! backend_tag = Some backend_info ∧
        worker_class backend_info = worker_class existing_info ∧
        version backend_info = version existing_info ∧
        replica_config backend_info = replica_config existing_info ∧
        (∀ f v, f ∈ fields_set config_options →
                field_values config_options !! f = Some v →
                field_values (backend_config backend_info) !! f = Some v) ∧
        (∀ f, f ∉ fields_set config_options →
              field_values (backend_config backend_info) !! f
              = field_values (backend_config existing_info) !! f) ∧
        fields_set (backend_config existing_info) ⊆ fields_set (backend_config backend_info) ∧
        endpoint_state c' = endpoint_state c ∧
        http_state c' = http_state c
  end.
Proof.
  unfold update_backend_config, get_backend, BackendState_get_backend. unfold_M. simpl.
  destruct (backends (backend_state c) !! backend_tag) as [existing_info|] eqn:Hreg.
  - eexists _, _, _. split; [reflexivity|]. simpl.
    split; [reflexivity|]. split; [apply lookup_insert_eq|].
    repeat split; try done.
    + intros f v Hset Hv. cbn [backend_config]. rewrite BackendConfig_copy_lookup.
      rewrite decide_True by done. by rewrite Hv.
    + intros f Hunset. cbn [backend_config]. rewrite BackendConfig_copy_lookup.
      by rewrite decide_False by done.
    + unfold BackendConfig_copy. simpl. set_solver.
  - eexists. split; [reflexivity|]. done.
Qed.

(** C9: [deploy] checks the route prefix before anything else.  A prefix
    that does not start with a slash ends the call with [AssertionError] in
    the very state it started in: nothing was read, written, logged or
    locked.  With no prefix, or one that starts with a slash, the call
    returns, so the assertion does not fail. *)
Theorem deploy_route_prefix_assertion c name config rconfig version route_prefix :
  match route_prefix with
  | Some prefix =>
      if startswith prefix "/"
      then ∃ goal_id c',
             deploy backend_def create_backend_replica ALL_HTTP_METHODS name config rconfig version
               route_prefix c = (Return goal_id, c')
      else deploy backend_def create_backend_replica ALL_HTTP_METHODS name config rconfig version
               route_prefix c = (Raise AssertionError, c)
  | None =>
      ∃ goal_id c',
        deploy backend_def create_backend_replica ALL_HTTP_METHODS name config rconfig version
               route_prefix c = (Return goal_id, c')
  end.
Proof.
  unfold deploy, assert_. unfold_M.
  destruct route_prefix as [prefix|]; [destruct (startswith prefix "/")|];
    simpl; eauto.
Qed.

(** C10: [get_deployment_info] raises [KeyError] exactly when no backend of
    that name is registered.  Otherwise it returns the registered
    [BackendInfo] with the route of the endpoint of that name.  In both cases
    the controller's state is untouched. *)
Theorem get_deployment_info_spec c name :
  match backends (backend_state c) !! name with
  | None =>
      get_deployment_info name c
      = (Raise (KeyError ("Deployment " +:+ name +:+ " does not exist.")), c)
  | Some backend_info =>
      get_deployment_info name c
      = (Return (backend_info,
                 EndpointState_get_endpoint_route name (endpoint_state c)), c)
  end ∧
  ((∃ msg c', get_deployment_info name c = (Raise (KeyError msg), c'))
   ↔ ¬ registered (backend_state c) name).
Proof.
  unfold get_deployment_info, get_backend, BackendState_get_backend, registered.
  unfold_M. simpl.
  destruct (backends (backend_state c) !! name) as [backend_info|] eqn:Hreg; simpl.
  - split; [done|]. split.
    + by intros (msg & c' & ?).
    + intros Hno. exfalso. apply Hno. by eexists.
  - split; [done|]. split.
    + intros _ [? ?]. done.
    + intros _. by eexists _, _.
Qed.

(** *** The control loop *)

Lemma run_control_loop_iteration_spec c :
  ∃ c',
    run_control_loop_iteration BackendState_update HTTPState_update c = (Return tt, c') ∧
    http_state c' = (HTTPState_update (http_state c)).2 ∧
    backend_state c' = (BackendState_update (backend_state c)).2 ∧
    endpoint_state c' = endpoint_state c ∧
    trace c' = trace c ++ [LockAcquired]
               ++ logged_failure ExceptionUpdatingHTTPState
                    (HTTPState_update (http_state c)).1
               ++ logged_failure ExceptionUpdatingBackendState
                    (BackendState_update (backend_state c)).1
               ++ [LockReleased; Slept CONTROL_LOOP_PERIOD_S].
Proof.
  unfold run_control_loop_iteration. unfold_M. simpl.
  destruct (HTTPState_update (http_state c)) as [[eh|] h]; simpl;
    destruct (BackendState_update (backend_state c)) as [[eb|] b];
    simpl; eexists; (split; [reflexivity|]); simpl;
    rewrite <- ?app_assoc; done.
Qed.

Lemma sleeps_app tr1 tr2 : sleeps (tr1 ++ tr2) = (sleeps tr1 + sleeps tr2)%nat.
Proof.
  induction tr1 as [|ev tr1 IH]; [done|].
  destruct ev; simpl; rewrite IH; done.
Qed.

Lemma sleeps_logged_failure record r : sleeps (logged_failure record r) = O.
Proof. by destruct r. Qed.

Lemma run_control_loop_trace_extends n c c' :
  run_control_loop BackendState_update HTTPState_update n c = (Return tt, c') → ∃ rest, trace c' = trace c ++ rest.
Proof.
  revert c. induction n as [|n IH]; intros c Hloop.
  - injection Hloop as <-. exists []. by rewrite app_nil_r.
  - cbn [run_control_loop] in Hloop. unfold mbind, M_bind at 1 in Hloop.
    destruct (run_control_loop_iteration_spec c) as (c1 & Hrun & _ & _ & _ & Htr).
    rewrite Hrun in Hloop. destruct (IH _ Hloop) as [rest Hrest].
    rewrite Hrest, Htr. rewrite <- !app_assoc. eauto.
Qed.

(** C5: a control-loop iteration returns whatever the two reconcile calls
    do.  Both are called: HTTP Fleet State and Workload State are each left
    as its own reconcile leaves it, whether or not the other one raised; an
    exception of either is logged between taking and releasing the lock; then
    the loop sleeps for the loop period.  So no number of iterations ends
    with an exception: after [n] of them the loop has slept [n] times and
    each component has been reconciled [n] times. *)
Theorem run_control_loop_isolates_failures :
  (∀ c, ∃ c',
     run_control_loop_iteration BackendState_update HTTPState_update c = (Return tt, c') ∧
     http_state c' = (HTTPState_update (http_state c)).2 ∧
     backend_state c' = (BackendState_update (backend_state c)).2 ∧
     endpoint_state c' = endpoint_state c ∧
     trace c' = trace c ++ [LockAcquired]
                ++ logged_failure ExceptionUpdatingHTTPState
                     (HTTPState_update (http_state c)).1
                ++ logged_failure ExceptionUpdatingBackendState
                     (BackendState_update (backend_state c)).1
                ++ [LockReleased; Slept CONTROL_LOOP_PERIOD_S]) ∧
  (∀ n c, ∃ c',
     run_control_loop BackendState_update HTTPState_update n c = (Return tt, c') ∧
     sleeps (trace c') = (sleeps (trace c) + n)%nat ∧
     http_state c' = Nat.iter n (λ h, (HTTPState_update h).2) (http_state c) ∧
     backend_state c' = Nat.iter n (λ b, (BackendState_update b).2) (backend_state c) ∧
     lock_held false (drop (length (trace c)) (trace c')) = false).
Proof.
  split; [apply run_control_loop_iteration_spec|].
  induction n as [|n IH]; intros c.
  - exists c. simpl. rewrite Nat.add_0_r, drop_all. done.
  - destruct (run_control_loop_iteration_spec c) as (c1 & Hrun & Hh & Hb & _ & Htr).
    destruct (IH c1) as (c' & Hloop & Hs & Hh' & Hb' & Hlock).
    exists c'. cbn [run_control_loop]. unfold mbind, M_bind at 1. rewrite Hrun, Hloop.
    split; [done|]. rewrite Hs, Hh', Hb', Hh, Hb, Htr.
    rewrite !sleeps_app, !sleeps_logged_failure. simpl.
    split; [lia|].
    split; [symmetry; exact (Nat.iter_succ_r n (λ h, (HTTPState_update h).2) (http_state c))|].
    split; [symmetry;
            exact (Nat.iter_succ_r n (λ b, (BackendState_update b).2) (backend_state c))|].
    destruct (run_control_loop_trace_extends _ _ _ Hloop) as [rest Hrest].
 rewrite Hrest in Hlock |- *.
    rewrite drop_app_length in Hlock. rewrite Htr.
    rewrite <- !app_assoc. rewrite drop_app_length. simpl.
    destruct (HTTPState_update (http_state c)) as [[eh|] h];
      destruct (BackendState_update (backend_state c)) as [[eb|] b]; simpl; exact Hlock.
Qed.

(** *** The preemption pipeline *)

Lemma with_target_replicas_id c :
  with_target_replicas (_target_replicas (backend_state c)) c = c.
Proof. by destruct c as [es [] hs tr]. Qed.

Lemma with_target_replicas_twice t1 t2 c :
  with_target_replicas t2 (with_target_replicas t1 c) = with_target_replicas t2 c.
Proof. done. Qed.

Lemma total_not_in (tb : list (BackendTag * Z)) b : b ∉ tb.*1 → total tb b = 0.
Proof.
  induction tb as [|[k n] tb IH]; simpl; [done|].
  rewrite not_elem_of_cons. intros [Hne Hb].
  rewrite decide_False by (intros ->; by apply Hne). rewrite IH by done. lia.
Qed.

Lemma target_replica_count_insert (t : gmap BackendTag Z) k v b :
  target_replica_count (<[k := v]> t) b
  = if decide (k = b) then v else target_replica_count t b.
Proof.
  unfold target_replica_count. destruct (decide (k = b)) as [->|Hne].
  - by rewrite lookup_insert_eq.
  - by rewrite lookup_insert_ne.
Qed.

(** What a dictionary of counts becomes when the backends [keys] are
    adjusted by [δ]: the counts move by [δ]; where every adjusted backend had
    a recorded count, so do the entries. *)
Lemma adjusted_count (keys : list BackendTag) (δ : BackendTag → Z) (t t1 : gmap BackendTag Z) :
  (∀ b, b ∉ keys → δ b = 0) →
  (∀ b, t1 !! b = if decide (b ∈ keys) then Some (target_replica_count t b + δ b)
                  else t !! b) →
  ∀ b, target_replica_count t1 b = target_replica_count t b + δ b.
Proof.
  intros Hδ Hlook b. unfold target_replica_count at 1. rewrite Hlook.
  destruct (decide (b ∈ keys)) as [Hin|Hout]; simpl; [done|].
  rewrite (Hδ b Hout). unfold target_replica_count. lia.
Qed.

Lemma adjusted_lookup (keys : list BackendTag) (δ : BackendTag → Z) (t t1 : gmap BackendTag Z) :
  (∀ b, b ∉ keys → δ b = 0) →
  (∀ b, t1 !! b = if decide (b ∈ keys) then Some (target_replica_count t b + δ b)
                  else t !! b) →
  (∀ b, b ∈ keys → is_Some (t !! b)) →
  ∀ b, t1 !! b = (λ v, v + δ b) <$> t !! b.
Proof.
  intros Hδ Hlook Hdom b. rewrite Hlook.
  destruct (decide (b ∈ keys)) as [Hin|Hout].
  - destruct (Hdom b Hin) as [v Hv]. unfold target_replica_count. by rewrite Hv.
  - rewrite (Hδ b Hout). destruct (t !! b); simpl; f_equal; lia.
Qed.

(** The loop that raises the targets always returns: every backend of
    [target_backends] ends with a recorded count, its count before plus the
    amount the dictionary holds for it; no other entry and nothing else has
    changed. *)
Lemma _handle_warning_rescale_spec tb c :
  ∃ c1,
    _handle_warning_rescale tb c = (Return tt, c1) ∧
    c1 = with_target_replicas (_target_replicas (backend_state c1)) c ∧
    (∀ b, _target_replicas (backend_state c1) !! b
          = if decide (b ∈ tb.*1)
            then Some (target_replica_count (_target_replicas (backend_state c)) b
                       + total tb b)
            else _target_replicas (backend_state c) !! b).
Proof.
  revert c. induction tb as [|[k n] tb IH]; intros c.
  - exists c. split; [done|]. split; [by rewrite with_target_replicas_id|].
    intros b. rewrite decide_False; [done | apply not_elem_of_nil].
  - cbn [_handle_warning_rescale]. unfold mbind, M_bind at 1.
    unfold target_replicas_iadd.
    match goal with
    | |- context [_handle_warning_rescale tb ?c'] =>
        destruct (IH c') as (c1 & Hrun & Hc1 & Hlook)
    end.
    exists c1. split; [exact Hrun|]. simpl in Hc1, Hlook. split; [exact Hc1|].
    intros b. rewrite Hlook, target_replica_count_insert.
    cbn [fmap list_fmap fst total].
    destruct (decide (k = b)) as [->|Hne].
    + rewrite (decide_True (P := b ∈ b :: tb.*1)) by apply list_elem_of_here.
      destruct (decide (b ∈ tb.*1)) as [Hin|Hout]; [f_equal; lia|].
      rewrite lookup_insert_eq, (total_not_in _ _ Hout). f_equal; lia.
    + rewrite lookup_insert_ne by done.
      destruct (decide (b ∈ tb.*1)) as [Hin|Hout].
      * rewrite decide_True by (apply elem_of_cons; by right). f_equal; lia.
      * rewrite decide_False; [done|]. rewrite not_elem_of_cons. split; [congruence | done].
Qed.

(** The loop that lowers them again always returns as well, and takes the
    same amounts off; a backend without a recorded count ends with minus the
    amount. *)
Lemma _rescale_after_warning_expires_spec tb c :
  ∃ c2,
    _rescale_after_warning_expires tb c = (Return tt, c2) ∧
    c2 = with_target_replicas (_target_replicas (backend_state c2)) c ∧
    (∀ b, _target_replicas (backend_state c2) !! b
          = if decide (b ∈ tb.*1)
            then Some (target_replica_count (_target_replicas (backend_state c)) b
                       - total tb b)
            else _target_replicas (backend_state c) !! b).
Proof.
  revert c. induction tb as [|[k n] tb IH]; intros c.
  - exists c. split; [done|]. split; [by rewrite with_target_replicas_id|].
    intros b. rewrite decide_False; [done | apply not_elem_of_nil].
  - cbn [_rescale_after_warning_expires]. unfold mbind, M_bind at 1.
    unfold target_replicas_isub.
    match goal with
    | |- context [_rescale_after_warning_expires tb ?c'] =>
        destruct (IH c') as (c2 & Hrun & Hc2 & Hlook)
    end.
    exists c2. split; [exact Hrun|]. simpl in Hc2, Hlook. split; [exact Hc2|].
    intros b. rewrite Hlook, target_replica_count_insert.
    cbn [fmap list_fmap fst total].
    destruct (decide (k = b)) as [->|Hne].
    + rewrite (decide_True (P := b ∈ b :: tb.*1)) by apply list_elem_of_here.
      destruct (decide (b ∈ tb.*1)) as [Hin|Hout]; [f_equal; lia|].
      rewrite lookup_insert_eq, (total_not_in _ _ Hout). f_equal; lia.
    + rewrite lookup_insert_ne by done.
      destruct (decide (b ∈ tb.*1)) as [Hin|Hout].
      * rewrite decide_True by (apply elem_of_cons; by right). f_equal; lia.
      * rewrite decide_False; [done|]. rewrite not_elem_of_cons. split; [congruence | done].
Qed.

Lemma total_opp_not_in (tb : list (BackendTag * Z)) b : b ∉ tb.*1 → - total tb b = 0.
Proof. intros Hout. rewrite (total_not_in _ _ Hout). lia. Qed.

(** The same, with the amount that is taken off written as one that is
    added. *)
Lemma _rescale_after_warning_expires_lookup tb c c2 :
  (∀ b, _target_replicas (backend_state c2) !! b
        = if decide (b ∈ tb.*1)
          then Some (target_replica_count (_target_replicas (backend_state c)) b
                     - total tb b)
          else _target_replicas (backend_state c) !! b) →
  ∀ b, _target_replicas (backend_state c2) !! b
       = if decide (b ∈ tb.*1)
         then Some (target_replica_count (_target_replicas (backend_state c)) b
                    + - total tb b)
         else _target_replicas (backend_state c) !! b.
Proof. intros Hlook b. rewrite Hlook. destruct (decide _); [f_equal; lia | done]. Qed.

(** X18: for any [target_backends] dictionary the loop that raises the
    target replica counts and the rollback loop over the same dictionary both
    return, and afterwards every backend's target replica count is what it
    was before; only the target dictionary was touched; and when every backend
    of the dictionary had a recorded count, the controller is exactly the one
    from before the increments. *)
Lemma rescale_round_trip tb c :
  ∃ c1 c2,
    _handle_warning_rescale tb c = (Return tt, c1) ∧
    _rescale_after_warning_expires tb c1 = (Return tt, c2) ∧
    (∀ b, target_replica_count (_target_replicas (backend_state c2)) b
          = target_replica_count (_target_replicas (backend_state c)) b) ∧
    c2 = with_target_replicas (_target_replicas (backend_state c2)) c ∧
    ((∀ b, b ∈ tb.*1 → is_Some (_target_replicas (backend_state c) !! b)) → c2 = c).
Proof.
  destruct (_handle_warning_rescale_spec tb c) as (c1 & Hup & Hc1 & Hlook).
  destruct (_rescale_after_warning_expires_spec tb c1) as (c2 & Hdown & Hc2 & Hlook2').
  pose proof (_rescale_after_warning_expires_lookup _ _ _ Hlook2') as Hlook2.
  exists c1, c2. split; [exact Hup|]. split; [exact Hdown|].
  assert (Hcount : ∀ b, target_replica_count (_target_replicas (backend_state c2)) b
                        = target_replica_count (_target_replicas (backend_state c)) b).
  { intros b.
    rewrite (adjusted_count _ _ _ _ (total_opp_not_in tb) Hlook2 b).
    rewrite (adjusted_count _ _ _ _ (total_not_in tb) Hlook b). lia. }
  split; [exact Hcount|].
  split; [by rewrite Hc2, Hc1 at 1|].
  intros Hdom.
  assert (Ht : _target_replicas (backend_state c2) = _target_replicas (backend_state c)).
  { apply map_eq. intros b.
    assert (Hdom1 : ∀ b, b ∈ tb.*1 → is_Some (_target_replicas (backend_state c1) !! b)).
    { intros b' Hb'. rewrite Hlook. rewrite decide_True by done. by eexists. }
    rewrite (adjusted_lookup _ _ _ _ (total_opp_not_in tb) Hlook2 Hdom1 b).
    rewrite (adjusted_lookup _ _ _ _ (total_not_in tb) Hlook Hdom b).
    destruct (_ !! b); simpl; f_equal; lia. }
  rewrite Hc2, Hc1, with_target_replicas_twice, Ht. apply with_target_replicas_id.
Qed.

(** Once [mock_variable] is [False] no handle matches any more. *)
Lemma _handle_warning_pair_mock_false node_ip backend pair_ l c :
  mock_variable l = false →
  _handle_warning_pair node_ip backend pair_ l c = (Return l, c).
Proof.
  intros Hmock. induction pair_ as [|[tag h] rest IH]; [done|].
  cbn [_handle_warning_pair]. unfold mbind, M_bind at 1.
  unfold _handle_warning_replica, _actor_handle_matches_node. rewrite Hmock.
  exact IH.
Qed.

Lemma _handle_warning_scan_mock_false node_ip handles l c :
  mock_variable l = false →
  _handle_warning_scan node_ip handles l c = (Return l, c).
Proof.
  intros Hmock. induction handles as [|[backend pair_] rest IH]; [done|].
  cbn [_handle_warning_scan]. unfold mbind, M_bind at 1.
  rewrite _handle_warning_pair_mock_false by done. exact IH.
Qed.

(** What the two loops of [_handle_warning] collect: the first replica
    handle they meet, counted once for its backend, whatever [node_ip] is. *)
Lemma _handle_warning_scan_first node_ip handles c :
  _handle_warning_scan node_ip handles
    {| target_backends := []; target_actors := []; mock_variable := true |} c
  = (Return match first_replica handles with
            | Some (backend, actor_handle) =>
                {| target_backends := [(backend, 1)];
                   target_actors := [actor_handle];
                   mock_variable := false |}
            | None =>
                {| target_backends := []; target_actors := []; mock_variable := true |}
            end, c).
Proof.
  induction handles as [|[backend [|[tag h] pair_]] rest IH]; [done| |].
  - cbn [_handle_warning_scan _handle_warning_pair first_replica].
    unfold mbind, M_bind at 1. unfold mret, M_ret at 1. exact IH.
  - cbn [_handle_warning_scan _handle_warning_pair first_replica].
    unfold mbind, M_bind at 1. unfold mbind, M_bind at 1.
    unfold _handle_warning_replica, _actor_handle_matches_node.
    cbn [mock_variable target_backends target_actors].
    unfold PyDict.mem. rewrite bool_decide_eq_false_2 by apply not_elem_of_nil.
    unfold dict_iadd. cbn [PyDict.set PyDict.get]. rewrite decide_True by done.
    cbn [PyDict.set]. rewrite decide_True by done.
    unfold mbind, M_bind at 1. unfold mret, M_ret at 1. unfold mret, M_ret at 1.
    cbn [app Z.add].
    rewrite _handle_warning_pair_mock_false by done.
    by rewrite _handle_warning_scan_mock_false.
Qed.

(** The drain timer asks each handle it was started with, and no other, to
    drain its pending queries. *)
Lemma _graceful_shutdown_before_shutoff_spec actors c :
  _graceful_shutdown_before_shutoff actors c
  = (Return tt,
     {| endpoint_state := endpoint_state c; backend_state := backend_state c;
        http_state := http_state c;
        trace := trace c ++ (DrainRequested <$> actors) |}).
Proof.
  revert c. induction actors as [|h actors IH]; intros c.
  - simpl. unfold_M. rewrite app_nil_r. by destruct c.
  - cbn [_graceful_shutdown_before_shutoff]. unfold mbind, M_bind at 1. unfold emit.
    rewrite IH. simpl. by rewrite <- app_assoc.
Qed.

Lemma _handle_warning_unfold node_ip time_left c :
  _handle_warning node_ip time_left c
  = let l := match first_replica (running_replica_handles (backend_state c)) with
             | Some (backend, actor_handle) =>
                 {| target_backends := [(backend, 1)];
                    target_actors := [actor_handle];
                    mock_variable := false |}
             | None =>
                 {| target_backends := []; target_actors := []; mock_variable := true |}
             end in
    match _handle_warning_rescale (target_backends l) c with
    | (Return _, c1) =>
        (Return tt,
         {| endpoint_state := endpoint_state c1; backend_state := backend_state c1;
            http_state := http_state c1;
            trace := trace c1
                     ++ [TimerStarted (PrimFloat.sub time_left 5%float)
                           (GracefulShutdownBeforeShutoff (target_actors l));
                         TimerStarted time_left
                           (RescaleAfterWarningExpires (target_backends l))] |})
    | (Raise e, c1) => (Raise e, c1)
    end.
Proof.
  unfold _handle_warning, _all_replica_handles, read_backend_state.
  unfold mbind, M_bind at 1. unfold mbind, M_bind at 1.
  rewrite _handle_warning_scan_first. cbv zeta.
  unfold mbind, M_bind at 1.
  destruct (_handle_warning_rescale _ c) as [[[]|e] c1]; [|done].
  unfold Timer_start. unfold_M. simpl. by rewrite <- app_assoc.
Qed.

(** C6: [_handle_warning] returns; it has raised the target replica counts
    by the amounts of [target_backends] and started the rollback timer, at
    [time_left], with that same dictionary.  The rollback then returns and
    takes the same amount off every count, so that every target replica count
    is what it was before the warning; the registered backends, the running
    replicas, Routing State and HTTP Fleet State are untouched.  When every
    backend of the dictionary had a recorded count before the warning, the
    entries themselves move by these amounts and Workload State as a whole is
    what it was before the warning. *)
Theorem rollback_restores_target_replicas c node_ip time_left :
  ∃ actors tb c1 c2,
    _handle_warning node_ip time_left c = (Return tt, c1) ∧
    trace c1 = trace c
               ++ [TimerStarted (PrimFloat.sub time_left 5%float)
                     (GracefulShutdownBeforeShutoff actors);
                   TimerStarted time_left (RescaleAfterWarningExpires tb)] ∧
    (∀ b, target_replica_count (_target_replicas (backend_state c1)) b
          = target_replica_count (_target_replicas (backend_state c)) b + total tb b) ∧
    Timer_fire (RescaleAfterWarningExpires tb) c1 = (Return tt, c2) ∧
    (∀ b, target_replica_count (_target_replicas (backend_state c2)) b
          = target_replica_count (_target_replicas (backend_state c1)) b - total tb b) ∧
    (∀ b, target_replica_count (_target_replicas (backend_state c2)) b
          = target_replica_count (_target_replicas (backend_state c)) b) ∧
    ((∀ b, b ∈ tb.*1 → is_Some (_target_replicas (backend_state c) !! b)) →
     (∀ b, _target_replicas (backend_state c1) !! b
           = (λ v, v + total tb b) <$> _target_replicas (backend_state c) !! b) ∧
     (∀ b, _target_replicas (backend_state c2) !! b
           = (λ v, v - total tb b) <$> _target_replicas (backend_state c1) !! b) ∧
     _target_replicas (backend_state c2) = _target_replicas (backend_state c) ∧
     backend_state c2 = backend_state c) ∧
    backends (backend_state c2) = backends (backend_state c) ∧
    running_replica_handles (backend_state c2) = running_replica_handles (backend_state c) ∧
    endpoint_state c2 = endpoint_state c ∧
    http_state c2 = http_state c.
Proof.
  rewrite _handle_warning_unfold. cbv zeta.
  set (l := match first_replica _ with Some _ => _ | None => _ end).
  destruct (_handle_warning_rescale_spec (target_backends l) c) as (c1 & Hup & Hc1 & Hlook).
  rewrite Hup.
  match goal with
  | |- ∃ _ _ _ _, (_, ?c1') = _ ∧ _ =>
      destruct (_rescale_after_warning_expires_spec (target_backends l) c1')
        as (c2 & Hrun & Hc2 & Hlook2')
  end.
  simpl in Hrun, Hc2, Hlook2'.
  pose proof (_rescale_after_warning_expires_lookup _ c1 c2 Hlook2') as Hlook2.
  pose proof (adjusted_count _ _ _ _ (total_not_in (target_backends l)) Hlook) as Hcount1.
  pose proof (adjusted_count _ _ _ _ (total_opp_not_in (target_backends l)) Hlook2)
    as Hcount2.
  eexists (target_actors l), (target_backends l), _, c2.
  split; [reflexivity|]. simpl.
  split; [by rewrite Hc1|]. split; [exact Hcount1|]. split; [exact Hrun|].
  split; [intros b; rewrite Hcount2; lia|].
  split; [intros b; rewrite Hcount2, Hcount1; lia|].
  split.
  { intros Hdom.
    assert (Hdom1 : ∀ b, b ∈ (target_backends l).*1
                         → is_Some (_target_replicas (backend_state c1) !! b)).
    { intros b Hb. rewrite Hlook. rewrite decide_True by done. by eexists. }
    pose proof (adjusted_lookup _ _ _ _ (total_not_in (target_backends l)) Hlook Hdom)
      as Hfmap1.
    pose proof (adjusted_lookup _ _ _ _ (total_opp_not_in (target_backends l)) Hlook2 Hdom1)
      as Hfmap2.
    assert (Ht : _target_replicas (backend_state c2) = _target_replicas (backend_state c)).
    { apply map_eq. intros b. rewrite Hfmap2, Hfmap1.
      destruct (_ !! b); simpl; f_equal; lia. }
    split; [exact Hfmap1|].
    split; [intros b; rewrite Hfmap2; destruct (_ !! b); simpl; f_equal; lia|].
    split; [exact Ht|].
    rewrite Hc2. simpl. rewrite Hc1. simpl. rewrite Ht. by destruct (backend_state c). }
  rewrite Hc2. simpl. rewrite Hc1. simpl. done.
Qed.

End ControllerFacts.

(** ** The concrete serving system at work *)
Module ScenarioFacts.
Import Scenario.

Ltac by_computation := apply (bool_decide_unpack _); vm_compute; exact I.

Lemma deployed_endpoints : (endpoint_state deployed).*1 = ["d"].
Proof. reflexivity. Qed.

Lemma deployed_in_use : backend_in_use (endpoint_state deployed) "d".
Proof. by_computation. Qed.

(** [delete_backend] on the deployment's backend, which its own endpoint
    references. *)
Lemma delete_backend_in_use_fails_witness :
  backend_in_use (endpoint_state deployed) "d" ∧
  ∃ msg c',
    delete_backend "d" true deployed = (Raise (ValueError msg), c') ∧
    endpoint_state c' = endpoint_state deployed ∧
    backend_state c' = backend_state deployed.
Proof.
  split; [exact deployed_in_use|].
  destruct (delete_backend_in_use_fails deployed "d" true deployed_in_use)
    as (endpoint & c' & Heq & _ & Hes & Hbs & _).
  eexists _, c'. split; [exact Heq|]. by split.
Defined.

(** [create_endpoint("foo", {"b1": 1.0}, "/foo", {"GET"})] on the controller
    that has just started: [b1] is not registered. *)
Lemma create_endpoint_unregistered_fails_witness :
  (∃ backend, backend ∈ [("b1", 1%float)].*1
              ∧ ¬ registered (backend_state started) backend) ∧
  ∃ msg c',
    create_endpoint HTTPState_ensure_http_route_exists
      "foo" [("b1", 1%float)] (Some "/foo") {["GET"]} started
    = (Raise (ValueError msg), c') ∧
    ¬ endpoint_exists (endpoint_state c') "foo".
Proof.
  assert (Hun : ∃ backend, backend ∈ [("b1", 1%float)].*1
                           ∧ ¬ registered (backend_state started) backend).
  { exists "b1". split; [by apply list_elem_of_singleton | by_computation]. }
  split; [exact Hun|].
  destruct (create_endpoint_unregistered_fails HTTPState_ensure_http_route_exists
              started "foo" [("b1", 1%float)] (Some "/foo") {["GET"]} Hun)
    as (backend & c' & Heq & _ & _ & _ & _ & _ & _ & Hfree).
  eexists _, c'. split; [exact Heq|]. apply Hfree. by_computation.
Defined.

(** [create_endpoint("foo", {"d": 1.0}, "/foo", {"GET"})] after the
    deployment of [d], with a wait that times out. *)
Lemma create_endpoint_wait_keeps_endpoint_witness :
  (∀ backend, backend ∈ [("d", 1%float)].*1 → registered (backend_state deployed) backend) ∧
  ∃ c',
    create_endpoint HTTPState_ensure_http_route_exists
      "foo" [("d", 1%float)] (Some "/foo") {["GET"]} deployed
    = (Raise (OtherException "TimeoutError" "foo"), c') ∧
    endpoint_exists (endpoint_state c') "foo".
Proof.
  assert (Hreg : ∀ backend, backend ∈ [("d", 1%float)].*1
                            → registered (backend_state deployed) backend).
  { intros backend Hin. apply list_elem_of_singleton in Hin as ->. by_computation. }
  split; [exact Hreg|].
  destruct (create_endpoint_wait_keeps_endpoint HTTPState_ensure_http_route_exists
              deployed "foo" [("d", 1%float)] (Some "/foo") {["GET"]} Hreg)
    as (c' & Heq & _ & _ & Hex & _).
  exists c'. split; [exact Heq | exact Hex].
Defined.

(** C2, the code at a node that holds three replicas of B, with
    [time_left = 20]: all three replicas are on the node, yet the target of B
    goes from 3 to 4, the drain timer (at 15 seconds) holds the first handle
    only and drains that one when it fires, and the rollback timer (at 20
    seconds) holds 1 for B.  A warning for a node that holds no replica does
    the same. *)
Theorem _handle_warning_counts_first_replica_only :
  replicas_on_node "10.0.0.1" [replica "1"; replica "2"; replica "3"]
  = [(replica "1").2; (replica "2").2; (replica "3").2] ∧
  _target_replicas (backend_state three_replicas) !! "B" = Some 3 ∧
  (_handle_warning "10.0.0.1" 20%float three_replicas).1 = Return tt ∧
  _target_replicas (backend_state (_handle_warning "10.0.0.1" 20%float three_replicas).2) !! "B"
  = Some 4 ∧
  trace (_handle_warning "10.0.0.1" 20%float three_replicas).2
  = [TimerStarted 15%float (GracefulShutdownBeforeShutoff [(replica "1").2]);
     TimerStarted 20%float (RescaleAfterWarningExpires [("B", 1)])] ∧
  trace (Timer_fire (GracefulShutdownBeforeShutoff [(replica "1").2]) three_replicas).2
  = [DrainRequested (replica "1").2] ∧
  replicas_on_node "10.0.0.9" [replica "1"; replica "2"; replica "3"] = [] ∧
  _target_replicas (backend_state (_handle_warning "10.0.0.9" 20%float three_replicas).2) !! "B"
  = Some 4.
Proof. repeat split; reflexivity. Qed.

(** Two iterations of the control loop when every reconcile raises: both
    failures are logged in each iteration and the loop goes on. *)
Example run_control_loop_two_iterations :
  (run_control_loop BackendState_update HTTPState_update 2 started).1 = Return tt ∧
  trace (run_control_loop BackendState_update HTTPState_update 2 started).2
  = [LockAcquired;
     LoggedError (ExceptionUpdatingHTTPState (OtherException "RuntimeError" "proxy unreachable"));
     LoggedError (ExceptionUpdatingBackendState
                    (OtherException "RuntimeError" "replica failed to start"));
     LockReleased; Slept CONTROL_LOOP_PERIOD_S;
     LockAcquired;
     LoggedError (ExceptionUpdatingHTTPState (OtherException "RuntimeError" "proxy unreachable"));
     LoggedError (ExceptionUpdatingBackendState
                    (OtherException "RuntimeError" "replica failed to start"));
     LockReleased; Slept CONTROL_LOOP_PERIOD_S] ∧
  http_state (run_control_loop BackendState_update HTTPState_update 2 started).2 = 2%nat.
Proof. repeat split; reflexivity. Qed.

(** [update_backend_config("d", options)] where the options set
    [max_concurrent_queries] only (their [num_replicas] is the default, 1):
    [num_replicas] keeps the deployed value, 3. *)
Example update_backend_config_keeps_unset_field :
  let options := {| field_values := {["num_replicas" := 1; "max_concurrent_queries" := 7]};
                    fields_set := {["max_concurrent_queries"]} |} in
  let c' := (update_backend_config "d" options deployed).2 in
  (update_backend_config "d" options deployed).1 = Return (Some 1%nat) ∧
  (field_values ∘ backend_config <$> backends (backend_state deployed) !! "d")
  = Some {["num_replicas" := 3; "max_concurrent_queries" := 100]} ∧
  (field_values ∘ backend_config <$> backends (backend_state c') !! "d")
  = Some {["num_replicas" := 3; "max_concurrent_queries" := 7]} ∧
  (version <$> backends (backend_state c') !! "d") = Some (Some "v1").
Proof. repeat split; reflexivity. Qed.

(** [get_deployment_info] for the deployment and for a name that was never
    deployed. *)
Example get_deployment_info_examples :
  (get_deployment_info "d" deployed).1
  = Return ({| worker_class := ClassDef ["__call__"]; version := Some "v1";
               backend_config := config 3; replica_config := ClassDef ["__call__"] |},
            Some "/d") ∧
  (get_deployment_info "e" deployed).1
  = Raise (KeyError "Deployment e does not exist.").
Proof. split; reflexivity. Qed.

(** [deploy] with a route prefix that lacks the leading slash. *)
Example deploy_bad_route_prefix :
  deploy backend_def create_backend_replica ALL_HTTP_METHODS
    "d" (config 1) (ClassDef ["__call__"]) (Some "v1") (Some "d") started
  = (Raise AssertionError, started).
Proof. reflexivity. Qed.

End ScenarioFacts.

(** ** More facts about the dictionaries *)
Module PyDictUpdates.
Import PyDict.
Section Dict.
Context {K V : Type} `{EqDecision K}.
Implicit Types (k : K) (v : V) (d : list (K * V)).

(** An item of the dictionary after [d[k] = v] is the new item or an old one. *)
Lemma elem_of_set k v (x : K * V) d : x ∈ set k v d → x = (k, v) ∨ x ∈ d.
Proof.
  induction d as [|[k0 v0] d IH]; simpl.
  - intros Hx. apply list_elem_of_singleton in Hx. by left.
  - destruct (decide (k = k0)) as [->|Hne]; rewrite !elem_of_cons.
    + intros [->|Hx]; [by left | right; by right].
    + intros [->|Hx]; [right; by left|].
      destruct (IH Hx) as [->|Hin]; [by left | right; by right].
Qed.

Lemma Forall_set (P : K * V → Prop) k v d : Forall P d → P (k, v) → Forall P (set k v d).
Proof.
  intros Hd Hkv. apply Forall_forall. intros x Hx.
  apply elem_of_set in Hx as [->|Hx]; [done|].
  by apply (proj1 (Forall_forall P d) Hd).
Qed.

Lemma Forall_del (P : K * V → Prop) k d : Forall P d → Forall P (del k d).
Proof.
  intros Hd. apply Forall_forall. intros x Hx.
  apply PyDictFacts.elem_of_del in Hx as [Hx _].
  by apply (proj1 (Forall_forall P d) Hd).
Qed.

(** Deleting a key that is not there changes nothing. *)
Lemma del_absent k d : k ∉ d.*1 → del k d = d.
Proof.
  induction d as [|[k0 v0] d IH]; simpl; [done|].
  rewrite not_elem_of_cons. intros [Hne Hd].
  rewrite decide_False by done. by rewrite IH.
Qed.

Lemma del_del k d : del k (del k d) = del k d.
Proof. apply del_absent, PyDictFacts.keys_del. Qed.

(** Setting a new key and deleting it again gives the dictionary back. *)
Lemma del_set_fresh k v d : k ∉ d.*1 → del k (set k v d) = d.
Proof.
  induction d as [|[k0 v0] d IH]; simpl.
  - intros _. by rewrite decide_True.
  - rewrite not_elem_of_cons. intros [Hne Hd].
    rewrite decide_False by done. simpl.
    rewrite decide_False by done. by rewrite IH.
Qed.

Lemma elem_of_set_here k v d : (k, v) ∈ set k v d.
Proof.
  induction d as [|[k0 v0] d IH]; simpl.
  - by apply list_elem_of_singleton.
  - destruct (decide (k = k0)); apply elem_of_cons; [by left | by right].
Qed.

Lemma get_del_ne k k' d : k ≠ k' → get k' (del k d) = get k' d.
Proof.
  intros Hne. induction d as [|[k0 v0] d IH]; simpl; [done|].
  destruct (decide (k = k0)) as [->|Hk0]; simpl.
  - by rewrite decide_False by done.
  - by rewrite IH.
Qed.

End Dict.
End PyDictUpdates.

(** ** Facts about the handlers taken together *)
Section ControllerInterfaceFacts.

Context {WorkerClass ReplicaConfig FieldValue HTTPState : Type}.
Variable backend_def : ReplicaConfig → BackendDef.
Variable create_backend_replica : BackendDef → WorkerClass.
Variable ALL_HTTP_METHODS : gset string.
Variable RESERVED_VERSION_TAG : string.
Variable HTTPState_ensure_http_route_exists :
  EndpointTag → Z → HTTPState → option Exn * HTTPState.

#[local] Existing Instance M_ret.
#[local] Existing Instance M_bind.

Implicit Types c : @Controller WorkerClass ReplicaConfig FieldValue HTTPState.
Implicit Types config options existing : @BackendConfig FieldValue.
Implicit Types bs : @BackendState WorkerClass ReplicaConfig FieldValue.
Implicit Types rconfig : ReplicaConfig.

#[local] Arguments BackendConfig_copy : simpl never.
#[local] Arguments BackendConfig_dict_exclude_unset : simpl never.

Ltac run_M :=
  unfold mbind, M_bind, mret, M_ret, raise, try_except, with_write_lock,
    logger_info, logger_error, asyncio_sleep, emit, read_endpoint_state, read_backend_state,
    write_endpoint_state, call_backend_state, try_backend_state, try_http_state in *.

Lemma delete_backend_check_free backend_tag (es : EndpointState) c :
  ¬ backend_in_use es backend_tag →
  delete_backend_check backend_tag (EndpointState_get_endpoints es) c = (Return tt, c).
Proof. exact (delete_backend_check_unused (λ _ _ h, (None, h)) backend_tag es c). Qed.

(** X1: when no endpoint references the backend, [delete_backend] returns
    what [BackendState.delete_backend] returns for the tag and the
    [force_kill] flag it was given; Routing State and HTTP Fleet State are
    untouched and the lock is released. *)
Theorem delete_backend_unused_returns c backend_tag force_kill :
  ¬ backend_in_use (endpoint_state c) backend_tag →
  ∃ goal_id c',
    delete_backend backend_tag force_kill c = (Return goal_id, c') ∧
    (goal_id, backend_state c')
    = BackendState_delete_backend backend_tag force_kill (backend_state c) ∧
    endpoint_state c' = endpoint_state c ∧
    http_state c' = http_state c ∧
    trace c' = trace c ++ [LockAcquired; LockReleased].
Proof.
  intros Hfree. unfold delete_backend. run_M. simpl.
  rewrite delete_backend_check_free by exact Hfree.
  simpl. eexists _, _. split; [reflexivity|]. simpl.
  split; [by destruct (BackendState_delete_backend _ _ _)|].
  rewrite <- app_assoc. done.
Qed.

(** What a call of [deploy] that passes the assertion leaves behind. *)
Lemma deploy_effect c name config rconfig version route_prefix :
  (∀ p, route_prefix = Some p → startswith p "/" = true) →
  deploy backend_def create_backend_replica ALL_HTTP_METHODS
    name config rconfig version route_prefix c
  = (Return (Some (goals_created (backend_state c))),
     {| endpoint_state :=
          EndpointState_update_endpoint name
            {| http_methods := ALL_HTTP_METHODS; route := route_prefix;
               python_methods := Some match backend_def rconfig with
                                      | ClassDef function_members => function_members
                                      | CallableDef => []
                                      end;
               legacy := Some false |}
            (TrafficPolicy_init [(name, 1%float)]) (endpoint_state c);
        backend_state :=
          (BackendState_deploy_backend name
             {| worker_class := create_backend_replica (backend_def rconfig);
                version := version; backend_config := config;
                replica_config := rconfig |} (backend_state c)).2;
        http_state := http_state c;
        trace := trace c ++ [LockAcquired; LockReleased] |}).
Proof.
  intros Hprefix. unfold deploy, assert_. run_M.
  destruct route_prefix as [p|]; [rewrite (Hprefix p eq_refl)|];
    simpl; rewrite <- app_assoc; done.
Qed.

(** X2: after a call of [deploy] whose route prefix is absent or starts with
    a slash, [get_deployment_info] of the name returns the [BackendInfo] that
    was deployed (the wrapped worker class, the version, the config and the
    replica config given) and the route prefix given; the endpoint of that
    name sends all its traffic to the backend of that name; every other
    endpoint and backend is as before. *)
Theorem deploy_then_get_deployment_info c name config rconfig version route_prefix :
  (∀ p, route_prefix = Some p → startswith p "/" = true) →
  ∃ goal_id c',
    deploy backend_def create_backend_replica ALL_HTTP_METHODS
      name config rconfig version route_prefix c = (Return goal_id, c') ∧
    get_deployment_info name c'
    = (Return ({| worker_class := create_backend_replica (backend_def rconfig);
                  version := version; backend_config := config;
                  replica_config := rconfig |}, route_prefix), c') ∧
    (∃ info, PyDict.get name (endpoint_state c')
             = Some (info, {| traffic_dict := [(name, 1%float)]; shadow_dict := [] |})
             ∧ http_methods info = ALL_HTTP_METHODS ∧ route info = route_prefix
             ∧ legacy info = Some false) ∧
    (∀ e, e ≠ name → PyDict.get e (endpoint_state c') = PyDict.get e (endpoint_state c)) ∧
    (∀ b, b ≠ name → backends (backend_state c') !! b = backends (backend_state c) !! b) ∧
    _target_replicas (backend_state c') = _target_replicas (backend_state c) ∧
    http_state c' = http_state c ∧
    trace c' = trace c ++ [LockAcquired; LockReleased].
Proof.
  intros Hprefix. eexists _, _. split; [by apply deploy_effect|].
  unfold get_deployment_info, get_backend, BackendState_get_backend,
    EndpointState_get_endpoint_route, EndpointState_update_endpoint. run_M. simpl.
  rewrite lookup_insert_eq. simpl. rewrite PyDictFacts.get_set_eq. simpl.
  split; [done|]. split; [eexists; split; [reflexivity|done]|].
  split; [intros e He; by apply PyDictFacts.get_set_ne|].
  split; [intros b Hb; by apply lookup_insert_ne|]. done.
Qed.

(** The state a refused [delete_backend] leaves: the one it found, with the
    lock taken and released. *)
Lemma delete_backend_in_use_raises c backend_tag force_kill :
  backend_in_use (endpoint_state c) backend_tag →
  ∃ msg,
    delete_backend backend_tag force_kill c
    = (Raise (ValueError msg),
       {| endpoint_state := endpoint_state c; backend_state := backend_state c;
          http_state := http_state c;
          trace := trace c ++ [LockAcquired; LockReleased] |}).
Proof.
  intros Huse. unfold delete_backend. run_M. simpl.
  match goal with
  | |- context [delete_backend_check _ _ ?c1] =>
      destruct (delete_backend_check_in_use backend_tag (endpoint_state c) c1 Huse)
        as (endpoint & _ & Heq)
  end.
  rewrite Heq. simpl. eexists. by rewrite <- app_assoc.
Qed.

(** X3: a backend that [deploy] has just deployed cannot be deleted with
    [delete_backend]: the endpoint that [deploy] installed references it, so
    the call raises [ValueError] and changes neither Routing State nor
    Workload State. *)
Theorem deploy_then_delete_backend_fails c name config rconfig version route_prefix force_kill :
  (∀ p, route_prefix = Some p → startswith p "/" = true) →
  ∃ goal_id c' msg c'',
    deploy backend_def create_backend_replica ALL_HTTP_METHODS
      name config rconfig version route_prefix c = (Return goal_id, c') ∧
    delete_backend name force_kill c' = (Raise (ValueError msg), c'') ∧
    registered (backend_state c'') name ∧
    endpoint_state c'' = endpoint_state c' ∧
    backend_state c'' = backend_state c'.
Proof.
  intros Hprefix. rewrite deploy_effect by exact Hprefix.
  match goal with
  | |- ∃ _ _ _ _, (_, ?c1) = _ ∧ _ =>
      assert (Huse : backend_in_use (endpoint_state c1) name)
  end.
  { simpl. unfold backend_in_use, EndpointState_update_endpoint.
    apply Exists_exists. eexists (name, (_, _)).
    split; [apply PyDictUpdates.elem_of_set_here|].
    left. simpl. by apply list_elem_of_singleton. }
  destruct (delete_backend_in_use_raises _ name force_kill Huse) as [msg Hdel].
  eexists _, _, msg, _. split; [reflexivity|]. split; [exact Hdel|].
  simpl. split; [|done]. unfold registered, BackendState_deploy_backend. simpl.
  rewrite lookup_insert_eq. by eexists.
Qed.

(** X4: [delete_endpoint] always returns.  It logs, then takes and releases
    the lock; the endpoint is gone afterwards and every other endpoint is
    kept; Workload State and HTTP Fleet State are untouched (no backend is
    modified).  Deleting an endpoint that does not exist leaves Routing State
    as it is, so a repeated call changes nothing more. *)
Theorem delete_endpoint_only_removes_endpoint c endpoint :
  ∃ c',
    delete_endpoint endpoint c = (Return tt, c') ∧
    ¬ endpoint_exists (endpoint_state c') endpoint ∧
    (∀ e, e.1 ≠ endpoint → e ∈ endpoint_state c' ↔ e ∈ endpoint_state c) ∧
    (¬ endpoint_exists (endpoint_state c) endpoint → endpoint_state c' = endpoint_state c) ∧
    endpoint_state (delete_endpoint endpoint c').2 = endpoint_state c' ∧
    backend_state c' = backend_state c ∧
    http_state c' = http_state c ∧
    trace c' = trace c ++ [LoggedInfo (DeletingEndpoint endpoint); LockAcquired; LockReleased].
Proof.
  unfold delete_endpoint. run_M. simpl. eexists. split; [reflexivity|]. simpl.
  unfold EndpointState_delete_endpoint, endpoint_exists.
  split; [apply PyDictFacts.keys_del|].
  split.
  { intros e He. rewrite PyDictFacts.elem_of_del. split; [by intros [? _] | by intros ?]. }
  split; [apply PyDictUpdates.del_absent|].
  split; [apply PyDictUpdates.del_del|].
  rewrite <- !app_assoc. done.
Qed.

(** X5: creating an endpoint under a name that is free and deleting it
    again gives back the Routing State and the Workload State from before the
    two calls, whether the wait for the route returned or raised. *)
Theorem create_endpoint_then_delete_endpoint c endpoint traffic_dict route methods :
  (∀ backend, backend ∈ traffic_dict.*1 → registered (backend_state c) backend) →
  ¬ endpoint_exists (endpoint_state c) endpoint →
  ∃ r c1 c2,
    create_endpoint HTTPState_ensure_http_route_exists endpoint traffic_dict route methods c
    = (r, c1) ∧
    endpoint_exists (endpoint_state c1) endpoint ∧
    delete_endpoint endpoint c1 = (Return tt, c2) ∧
    endpoint_state c2 = endpoint_state c ∧
    backend_state c2 = backend_state c.
Proof.
  intros Hreg Hfree. unfold create_endpoint, ensure_http_route_exists, delete_endpoint.
  run_M. simpl. rewrite _validate_traffic_dict_registered by exact Hreg. simpl.
  destruct (HTTPState_ensure_http_route_exists endpoint 30 (http_state c)) as [[e|] h];
    simpl; eexists _, _, _; (split; [reflexivity|]); simpl;
    unfold EndpointState_create_endpoint, EndpointState_delete_endpoint, endpoint_exists;
    (split; [apply PyDictFacts.keys_set|]); (split; [reflexivity|]); simpl;
    (split; [by apply PyDictUpdates.del_set_fresh | done]).
Qed.

(** What [delete_endpoint] leaves behind. *)
Lemma delete_endpoint_effect c endpoint :
  delete_endpoint endpoint c
  = (Return tt,
     {| endpoint_state := EndpointState_delete_endpoint endpoint (endpoint_state c);
        backend_state := backend_state c;
        http_state := http_state c;
        trace := trace c ++ [LoggedInfo (DeletingEndpoint endpoint);
                             LockAcquired; LockReleased] |}).
Proof. unfold delete_endpoint. run_M. simpl. by rewrite <- !app_assoc. Qed.

(** What [delete_backend] leaves behind when no endpoint uses the backend. *)
Lemma delete_backend_unused_effect c backend_tag force_kill :
  ¬ backend_in_use (endpoint_state c) backend_tag →
  delete_backend backend_tag force_kill c
  = (Return (BackendState_delete_backend backend_tag force_kill (backend_state c)).1,
     {| endpoint_state := endpoint_state c;
        backend_state :=
          (BackendState_delete_backend backend_tag force_kill (backend_state c)).2;
        http_state := http_state c;
        trace := trace c ++ [LockAcquired; LockReleased] |}).
Proof.
  intros Hfree. unfold delete_backend. run_M. simpl.
  rewrite delete_backend_check_free by exact Hfree. simpl. by rewrite <- app_assoc.
Qed.

(** X6: when no endpoint other than the endpoint [name] references the
    backend [name], [delete_deployment] does to Routing State, Workload State
    and HTTP Fleet State exactly what [delete_endpoint] followed by
    [delete_backend] (without [force_kill]) does, and returns the same goal.
    The two differ in what they leave in the log and in the lock:
    [delete_deployment] logs nothing and never takes the write lock. *)
Theorem delete_deployment_as_two_calls c name :
  (∀ e, e ∈ endpoint_state c → references e.2.2 name → e.1 = name) →
  ∃ goal_id c1 c2,
    delete_deployment name c = (Return goal_id, c1) ∧
    (delete_endpoint name;; delete_backend name false) c = (Return goal_id, c2) ∧
    endpoint_state c1 = endpoint_state c2 ∧
    backend_state c1 = backend_state c2 ∧
    http_state c1 = http_state c2 ∧
    trace c1 = trace c ∧
    trace c2 = trace c ++ [LoggedInfo (DeletingEndpoint name); LockAcquired; LockReleased;
                           LockAcquired; LockReleased].
Proof.
  intros Hown.
  assert (Hfree : ¬ backend_in_use (EndpointState_delete_endpoint name (endpoint_state c)) name).
  { unfold backend_in_use, EndpointState_delete_endpoint. rewrite Exists_exists.
    intros (e & Hin & Href). apply PyDictFacts.elem_of_del in Hin as [Hin Hne].
    by apply Hne, Hown. }
  eexists _, _, _. split; [unfold delete_deployment; run_M; reflexivity|].
  split.
  { unfold mbind, M_bind at 1. rewrite delete_endpoint_effect.
    rewrite delete_backend_unused_effect by exact Hfree. reflexivity. }
  simpl. rewrite <- !app_assoc. done.
Qed.

Lemma get_backend_config_registered c backend_tag backend_info :
  backends (backend_state c) !! backend_tag = Some backend_info →
  get_backend_config backend_tag c = (Return (backend_config backend_info), c).
Proof.
  intros Hreg. unfold get_backend_config, get_backend, BackendState_get_backend. run_M.
  simpl. rewrite Hreg. simpl. by rewrite Hreg.
Qed.

(** X7: [get_backend_config] raises [ValueError] exactly when the tag is not
    registered and returns the config of the registered backend otherwise
    (the second lookup never fails); it changes nothing. *)
Theorem get_backend_config_spec c backend_tag :
  match backends (backend_state c) !! backend_tag with
  | None =>
      get_backend_config backend_tag c
      = (Raise (ValueError ("Backend " +:+ backend_tag +:+ " is not registered.")), c)
  | Some backend_info =>
      get_backend_config backend_tag c = (Return (backend_config backend_info), c)
  end.
Proof.
  unfold get_backend_config, get_backend, BackendState_get_backend. run_M. simpl.
  destruct (backends (backend_state c) !! backend_tag) as [info|] eqn:Hreg; simpl;
    [by rewrite Hreg | done].
Qed.

(** X8: after [create_backend] the tag is registered with the reserved
    version tag and the wrapped worker class, [get_backend_config] returns the
    config that was given and [get_all_backends] lists it under the tag;
    Routing State is untouched, so is every other backend. *)
Theorem create_backend_then_get_backend_config c backend_tag config rconfig :
  ∃ goal_id c' configs,
    create_backend backend_def create_backend_replica RESERVED_VERSION_TAG
      backend_tag config rconfig c = (Return goal_id, c') ∧
    backends (backend_state c') !! backend_tag
    = Some {| worker_class := create_backend_replica (backend_def rconfig);
              version := Some RESERVED_VERSION_TAG;
              backend_config := config; replica_config := rconfig |} ∧
    get_backend_config backend_tag c' = (Return config, c') ∧
    get_all_backends c' = (Return configs, c') ∧
    configs !! backend_tag = Some config ∧
    (∀ b, b ≠ backend_tag → backends (backend_state c') !! b = backends (backend_state c) !! b) ∧
    endpoint_state c' = endpoint_state c ∧
    trace c' = trace c ++ [LockAcquired; LockReleased].
Proof.
  unfold create_backend. run_M. simpl. eexists _, _, _. split; [reflexivity|].
  split; [apply lookup_insert_eq|].
  split.
  { refine (get_backend_config_registered _ _
              {| worker_class := _; version := _; backend_config := config;
                 replica_config := _ |} _).
    simpl. apply lookup_insert_eq. }
  split; [reflexivity|]. simpl.
  split; [unfold BackendState_get_backend_configs; simpl;
          by rewrite lookup_fmap, lookup_insert_eq|].
  split; [intros b Hb; by apply lookup_insert_ne|].
  rewrite <- app_assoc. done.
Qed.

(** What [update_backend_config] leaves behind for a registered tag. *)
Lemma update_backend_config_effect c backend_tag options existing_info :
  backends (backend_state c) !! backend_tag = Some existing_info →
  update_backend_config backend_tag options c
  = (Return (Some (goals_created (backend_state c))),
     {| endpoint_state := endpoint_state c;
        backend_state :=
          (BackendState_deploy_backend backend_tag
             {| worker_class := worker_class existing_info;
                version := version existing_info;
                backend_config :=
                  BackendConfig_copy (backend_config existing_info)
                    (BackendConfig_dict_exclude_unset options);
                replica_config := replica_config existing_info |} (backend_state c)).2;
        http_state := http_state c;
        trace := trace c ++ [LockAcquired; LockReleased] |}).
Proof.
  intros Hreg. unfold update_backend_config, get_backend, BackendState_get_backend.
  run_M. simpl. rewrite Hreg. simpl. by rewrite <- app_assoc.
Qed.

(** Merging the same update a second time changes nothing. *)
Lemma BackendConfig_copy_idemp existing (update : gmap string FieldValue) :
  BackendConfig_copy (BackendConfig_copy existing update) update
  = BackendConfig_copy existing update.
Proof.
  unfold BackendConfig_copy. simpl. f_equal.
  - apply map_eq. intros f. rewrite !lookup_union.
    by destruct (update !! f), (field_values existing !! f).
  - rewrite <- (assoc_L (∪)). by rewrite (idemp_L (∪) (dom update)).
Qed.

(** Options that set no field give an empty update, which changes nothing. *)
Lemma BackendConfig_copy_unset existing options :
  fields_set options = ∅ →
  BackendConfig_copy existing (BackendConfig_dict_exclude_unset options) = existing.
Proof.
  intros Hunset.
  assert (Hempty : BackendConfig_dict_exclude_unset options = ∅).
  { unfold BackendConfig_dict_exclude_unset. apply map_eq. intros f.
    rewrite map_lookup_filter, lookup_empty, Hunset.
    destruct (field_values options !! f); simpl; [|done].
    rewrite option_guard_False; [done | set_solver]. }
  rewrite Hempty. unfold BackendConfig_copy. destruct existing as [values set].
  simpl. f_equal.
  - by rewrite (left_id_L ∅ (∪)).
  - rewrite dom_empty_L. by rewrite (right_id_L ∅ (∪)).
Qed.

(** X9: after [update_backend_config] on a registered backend,
    [get_backend_config] returns the merged config, that is the existing one
    copied with the explicitly set fields of the options as update.  The call
    is safe to repeat: a second call with the same options leaves the
    registered backends as the first call left them. *)
Theorem update_backend_config_then_get_backend_config c backend_tag options existing_info :
  backends (backend_state c) !! backend_tag = Some existing_info →
  ∃ goal_id c' goal_id' c'',
    update_backend_config backend_tag options c = (Return goal_id, c') ∧
    get_backend_config backend_tag c'
    = (Return (BackendConfig_copy (backend_config existing_info)
                 (BackendConfig_dict_exclude_unset options)), c') ∧
    update_backend_config backend_tag options c' = (Return goal_id', c'') ∧
    backends (backend_state c'') = backends (backend_state c') ∧
    endpoint_state c'' = endpoint_state c.
Proof.
  intros Hreg. eexists _, _, _, _.
  split; [by apply update_backend_config_effect|].
  split.
  { refine (get_backend_config_registered _ _
              {| worker_class := _; version := _;
                 backend_config := BackendConfig_copy _ _; replica_config := _ |} _).
    simpl. apply lookup_insert_eq. }
  split.
  { apply update_backend_config_effect. simpl. apply lookup_insert_eq. }
  simpl. split; [|done].
  rewrite BackendConfig_copy_idemp. apply insert_insert_eq.
Qed.

(** X10: [update_backend_config] with options that set no field explicitly
    is accepted for a registered backend and leaves every registered backend,
    this one included, exactly as it was. *)
Theorem update_backend_config_nothing_set c backend_tag options :
  registered (backend_state c) backend_tag →
  fields_set options = ∅ →
  ∃ goal_id c',
    update_backend_config backend_tag options c = (Return goal_id, c') ∧
    backends (backend_state c') = backends (backend_state c) ∧
    endpoint_state c' = endpoint_state c.
Proof.
  intros [existing_info Hreg] Hunset. eexists _, _.
  split; [by apply update_backend_config_effect|]. simpl. split; [|done].
  rewrite BackendConfig_copy_unset by exact Hunset.
  apply insert_id. rewrite Hreg. by destruct existing_info.
Qed.

(** X11: [_validate_traffic_dict] never changes the controller.  It returns
    exactly when every backend of the dictionary is registered (so always for
    the empty dictionary); otherwise it raises [ValueError] for the first
    backend, in the order of the dictionary, that is not registered. *)
Theorem _validate_traffic_dict_spec c (traffic_dict : list (BackendTag * float)) :
  ∃ r,
    _validate_traffic_dict traffic_dict c = (r, c) ∧
    match r with
    | Return _ => ∀ backend, backend ∈ traffic_dict.*1 → registered (backend_state c) backend
    | Raise e =>
        ∃ before backend weight after,
          traffic_dict = before ++ (backend, weight) :: after ∧
          (∀ b, b ∈ before.*1 → registered (backend_state c) b) ∧
          ¬ registered (backend_state c) backend ∧
          e = ValueError ("Attempted to assign traffic to a backend '" +:+ backend
                          +:+ "' that is not registered.")
    end.
Proof.
  unfold registered.
  induction traffic_dict as [|[backend weight] rest IH].
  - exists (Return tt). split; [done|]. intros b Hb. by apply elem_of_nil in Hb.
  - cbn [_validate_traffic_dict]. unfold get_backend, BackendState_get_backend. run_M.
    destruct (backends (backend_state c) !! backend) as [info|] eqn:Hreg.
    + destruct IH as (r & Hrun & Hr). exists r. split; [exact Hrun|].
      destruct r as [[]|e].
      * intros b Hb. simpl in Hb. apply elem_of_cons in Hb as [->|Hb]; [by rewrite Hreg | auto].
      * destruct Hr as (before & b & w & after & -> & Hbefore & Hb & ->).
        exists ((backend, weight) :: before), b, w, after. split; [done|].
        split; [|done]. intros b' Hb'. simpl in Hb'.
        apply elem_of_cons in Hb' as [->|Hb']; [by rewrite Hreg | auto].
    + eexists. split; [reflexivity|]. exists [], backend, weight, rest.
      split; [done|]. split; [intros b Hb; by apply elem_of_nil in Hb|].
      split; [|done]. rewrite Hreg. by intros [? ?].
Qed.

(** X12: [list_deployments] changes nothing and agrees with
    [get_deployment_info] on every name: a listed name has the [BackendInfo]
    and the route that [get_deployment_info] returns for it, and a name that
    is not listed is one for which [get_deployment_info] raises [KeyError]. *)
Theorem list_deployments_agrees_with_get_deployment_info c name :
  ∃ listing,
    list_deployments c = (Return listing, c) ∧
    match listing !! name with
    | Some (info, route) =>
        ∃ backend_info,
          info = Some backend_info ∧
          get_deployment_info name c = (Return (backend_info, route), c)
    | None => ∃ msg, get_deployment_info name c = (Raise (KeyError msg), c)
    end.
Proof.
  eexists. split; [reflexivity|].
  rewrite map_lookup_imap. unfold BackendState_get_backend_configs.
  rewrite lookup_fmap.
  unfold get_deployment_info, get_backend, BackendState_get_backend. run_M. simpl.
  destruct (backends (backend_state c) !! name) as [backend_info|] eqn:Hreg; simpl.
  - by exists backend_info.
  - by eexists.
Qed.

(** *** The preemption pipeline at its edges *)

(** X13: [_handle_warning] does not look at [node_ip]: for any two node
    addresses it does the same.  When it returns, the drain timer it started
    holds at most one actor handle. *)
Theorem _handle_warning_ignores_node_ip c node_ip node_ip' time_left :
  _handle_warning node_ip time_left c = _handle_warning node_ip' time_left c ∧
  match _handle_warning node_ip time_left c with
  | (Return _, c1) =>
      ∃ actors tb,
        trace c1 = trace c
                   ++ [TimerStarted (PrimFloat.sub time_left 5%float)
                         (GracefulShutdownBeforeShutoff actors);
                       TimerStarted time_left (RescaleAfterWarningExpires tb)] ∧
        (length actors ≤ 1)%nat ∧ length tb = length actors
  | (Raise _, _) => True
  end.
Proof.
  split; [by rewrite !_handle_warning_unfold|].
  rewrite _handle_warning_unfold. cbv zeta.
  destruct (first_replica _) as [[backend h]|].
  - cbn [target_backends target_actors _handle_warning_rescale].
    unfold mbind, M_bind at 1. unfold target_replicas_iadd.
    simpl. eexists _, _. split; [reflexivity|]. simpl. split; [lia | done].
  - simpl. eexists _, _. split; [reflexivity|]. simpl. split; [lia | done].
Qed.

Lemma first_replica_None (handles : list (BackendTag * list (ReplicaTag * ActorHandle))) :
  (∀ p, p ∈ handles → p.2 = []) → first_replica handles = None.
Proof.
  induction handles as [|[backend pair_] rest IH]; intros Hempty; [done|].
  assert (pair_ = []) as -> by exact (Hempty (backend, pair_) (list_elem_of_here _ _)).
  simpl. apply IH. intros p Hp. apply Hempty. by apply list_elem_of_further.
Qed.

(** X14: a warning that arrives while no replica is running still returns
    and starts both timers, with nothing to drain and nothing to roll back: the
    components are untouched, and each timer, when it fires, returns and
    changes nothing. *)
Theorem _handle_warning_without_replicas c node_ip time_left :
  (∀ p, p ∈ running_replica_handles (backend_state c) → p.2 = []) →
  ∃ c',
    _handle_warning node_ip time_left c = (Return tt, c') ∧
    endpoint_state c' = endpoint_state c ∧
    backend_state c' = backend_state c ∧
    http_state c' = http_state c ∧
    trace c' = trace c
               ++ [TimerStarted (PrimFloat.sub time_left 5%float)
                     (GracefulShutdownBeforeShutoff []);
                   TimerStarted time_left (RescaleAfterWarningExpires [])] ∧
    Timer_fire (GracefulShutdownBeforeShutoff []) c' = (Return tt, c') ∧
    Timer_fire (RescaleAfterWarningExpires []) c' = (Return tt, c').
Proof.
  intros Hempty. rewrite _handle_warning_unfold, (first_replica_None _ Hempty).
  simpl. eexists. split; [reflexivity|]. done.
Qed.

(** X15: the rollback never raises.  For a backend of [target_backends]
    that has no recorded target replica count when the timer fires, it
    records minus the amount the dictionary holds for it (a negative count);
    every count goes down by the backend's amount, the entries of the backends
    that are not in the dictionary are untouched, and nothing but the target
    dictionary has changed. *)
Theorem _rescale_after_warning_expires_missing_backend c
    (tb : list (BackendTag * Z)) backend :
  backend ∈ tb.*1 →
  _target_replicas (backend_state c) !! backend = None →
  ∃ c',
    _rescale_after_warning_expires tb c = (Return tt, c') ∧
    _target_replicas (backend_state c') !! backend = Some (- total tb backend) ∧
    (∀ b, target_replica_count (_target_replicas (backend_state c')) b
          = target_replica_count (_target_replicas (backend_state c)) b - total tb b) ∧
    (∀ b, b ∉ tb.*1 →
          _target_replicas (backend_state c') !! b = _target_replicas (backend_state c) !! b) ∧
    c' = with_target_replicas (_target_replicas (backend_state c')) c.
Proof.
  intros Hin Hmissing.
  destruct (_rescale_after_warning_expires_spec tb c) as (c1 & Hrun & Hc1 & Hlook).
  exists c1. split; [exact Hrun|].
  split.
  { rewrite Hlook. rewrite decide_True by done.
    unfold target_replica_count. rewrite Hmissing. simpl. f_equal; lia. }
  split.
  { intros b. unfold target_replica_count at 1. rewrite Hlook.
    destruct (decide (b ∈ tb.*1)) as [Hb|Hb]; simpl; [done|].
    rewrite (total_not_in _ _ Hb). unfold target_replica_count. lia. }
  split; [|exact Hc1].
  intros b Hb. rewrite Hlook. by rewrite decide_False.
Qed.

(** *** Referential integrity *)

Lemma integrity_of_mono (es : EndpointState) bs bs' :
  (∀ b, registered bs b → registered bs' b) → integrity_of es bs → integrity_of es bs'.
Proof.
  intros Hmono Hint. unfold integrity_of in *.
  eapply Forall_impl; [exact Hint|]. intros e He. simpl in He |- *.
  eapply Forall_impl; [exact He | exact Hmono].
Qed.

Lemma registered_deploy_backend bs tag info b :
  registered bs b → registered (BackendState_deploy_backend tag info bs).2 b.
Proof.
  unfold registered, BackendState_deploy_backend. simpl.
  destruct (decide (tag = b)) as [->|Hne].
  - rewrite lookup_insert_eq. by eexists.
  - by rewrite lookup_insert_ne.
Qed.

Lemma integrity_of_delete_backend (es : EndpointState) bs tag force_kill :
  ¬ backend_in_use es tag → integrity_of es bs →
  integrity_of es (BackendState_delete_backend tag force_kill bs).2.
Proof.
  unfold backend_in_use, integrity_of, references. rewrite Exists_exists.
  intros Hfree Hint. apply Forall_forall. intros e He.
  apply Forall_forall. intros b Hb.
  pose proof (proj1 (Forall_forall _ _) (proj1 (Forall_forall _ _) Hint e He) b Hb) as Hreg.
  assert (Hne : tag ≠ b).
  { intros ->. apply Hfree. exists e. split; [done|]. by apply elem_of_app in Hb. }
  unfold registered, BackendState_delete_backend.
  destruct (backends bs !! tag); [|done]. simpl. by rewrite lookup_delete_ne.
Qed.

(** Validation leaves the controller alone, and a dictionary it accepts
    names registered backends only. *)
Lemma _validate_traffic_dict_frame (traffic_dict : list (BackendTag * float)) c :
  ∃ r,
    _validate_traffic_dict traffic_dict c = (r, c) ∧
    (r = Return tt → Forall (registered (backend_state c)) traffic_dict.*1).
Proof.
  induction traffic_dict as [|[backend weight] rest IH].
  - exists (Return tt). split; [done|]. intros _. apply Forall_nil_2.
  - cbn [_validate_traffic_dict]. unfold get_backend, BackendState_get_backend. run_M.
    destruct (backends (backend_state c) !! backend) as [info|] eqn:Hreg.
    + destruct IH as (r & Hrun & Hr). exists r. split; [exact Hrun|].
      intros ->. simpl. apply Forall_cons. split; [|by apply Hr].
      unfold registered. by rewrite Hreg.
    + eexists. split; [reflexivity|]. done.
Qed.

Lemma handle_preserves_integrity (r : Request) c :
  referential_integrity c →
  referential_integrity
    (handle backend_def create_backend_replica ALL_HTTP_METHODS RESERVED_VERSION_TAG
       HTTPState_ensure_http_route_exists r c).
Proof.
  unfold referential_integrity. intros Hint.
  destruct r as [endpoint traffic_dict route methods | endpoint
                 | backend_tag config rconfig | backend_tag force_kill
                 | backend_tag options | name config rconfig version route_prefix];
    cbn [handle].
  - (* create_endpoint *)
    unfold create_endpoint, ensure_http_route_exists. run_M. simpl.
    match goal with
    | |- context [_validate_traffic_dict _ ?c1] =>
        destruct (_validate_traffic_dict_frame traffic_dict c1) as (r & Hrun & Hr)
    end.
    rewrite Hrun. destruct r as [[]|e]; simpl; [|exact Hint].
    destruct (HTTPState_ensure_http_route_exists endpoint 30 (http_state c)) as [[e|] h];
      simpl; unfold EndpointState_create_endpoint;
      (apply PyDictUpdates.Forall_set; [exact Hint|]); simpl;
      rewrite app_nil_r; by apply Hr.
  - (* delete_endpoint *)
    unfold delete_endpoint. run_M. simpl. unfold EndpointState_delete_endpoint.
    by apply PyDictUpdates.Forall_del.
  - (* create_backend *)
    unfold create_backend. run_M. simpl.
    refine (integrity_of_mono _ _ _ _ Hint). intros b.
    apply (registered_deploy_backend (backend_state c)).
  - (* delete_backend *)
    destruct (decide (backend_in_use (endpoint_state c) backend_tag)) as [Huse|Hfree].
    + destruct (delete_backend_in_use_raises c backend_tag force_kill Huse) as [msg ->].
      exact Hint.
    + unfold delete_backend. run_M. simpl.
      rewrite delete_backend_check_free by exact Hfree. simpl.
      by apply integrity_of_delete_backend.
  - (* update_backend_config *)
    destruct (backends (backend_state c) !! backend_tag) as [existing_info|] eqn:Hreg.
    + rewrite (update_backend_config_effect _ _ _ _ Hreg). simpl.
      refine (integrity_of_mono _ _ _ _ Hint). intros b.
      apply (registered_deploy_backend (backend_state c)).
    + unfold update_backend_config, get_backend, BackendState_get_backend. run_M. simpl.
      rewrite Hreg. simpl. exact Hint.
  - (* deploy *)
    assert (Hgood : (∀ p, route_prefix = Some p → startswith p "/" = true) →
                    integrity_of
                      (endpoint_state
                         (deploy backend_def create_backend_replica ALL_HTTP_METHODS
                            name config rconfig version route_prefix c).2)
                      (backend_state
                         (deploy backend_def create_backend_replica ALL_HTTP_METHODS
                            name config rconfig version route_prefix c).2)).
    { intros Hprefix. rewrite deploy_effect by exact Hprefix. simpl.
      unfold EndpointState_update_endpoint. apply PyDictUpdates.Forall_set.
      - refine (integrity_of_mono _ _ _ _ Hint). intros b.
        apply (registered_deploy_backend (backend_state c)).
      - simpl. apply Forall_cons. split; [|apply Forall_nil_2].
        unfold registered, BackendState_deploy_backend. simpl.
        rewrite lookup_insert_eq. by eexists. }
    destruct route_prefix as [p|]; [|apply Hgood; by intros p [=]].
    destruct (startswith p "/") eqn:Hp; [apply Hgood; by intros ? [= <-]|].
    unfold deploy, assert_. run_M. rewrite Hp. exact Hint.
Qed.

(** X16: the handlers that check references keep Routing State and
    Workload State consistent.  If every backend named by a traffic policy or
    shadow list is registered, this still holds after any sequence of
    [create_endpoint], [delete_endpoint], [create_backend], [delete_backend],
    [update_backend_config] and [deploy] calls, whichever of them return and
    whichever raise. *)
Theorem handle_all_preserves_integrity (rs : list Request) c :
  referential_integrity c →
  referential_integrity
    (handle_all backend_def create_backend_replica ALL_HTTP_METHODS RESERVED_VERSION_TAG
       HTTPState_ensure_http_route_exists rs c).
Proof.
  revert c. induction rs as [|r rs IH]; intros c Hint; [exact Hint|].
  cbn [handle_all foldl]. apply IH. by apply handle_preserves_integrity.
Qed.

(** *** Backends and endpoints together *)

Lemma get_endpoints_lookup (es : EndpointState) endpoint :
  PyDict.get endpoint (EndpointState_get_endpoints es)
  = endpoint_view <$> PyDict.get endpoint es.
Proof.
  unfold EndpointState_get_endpoints.
  induction es as [|[k e] es IH]; [done|].
  cbn [fmap list_fmap prod_map PyDict.get fst snd id].
  by destruct (decide (endpoint = k)).
Qed.

(** X17: a backend that [create_backend] has just registered can be given
    traffic at once: [create_endpoint] with a traffic dictionary that names
    only this backend passes validation, ends as the wait for the route ends,
    and [get_all_endpoints] then lists the endpoint with the route, the
    methods and the traffic that were given, and no shadows. *)
Theorem create_backend_then_create_endpoint
    c backend_tag config rconfig endpoint weight route methods :
  ∃ goal_id c1 c2 endpoints,
    create_backend backend_def create_backend_replica RESERVED_VERSION_TAG
      backend_tag config rconfig c = (Return goal_id, c1) ∧
    create_endpoint HTTPState_ensure_http_route_exists
      endpoint [(backend_tag, weight)] route methods c1
    = (match (HTTPState_ensure_http_route_exists endpoint 30 (http_state c)).1 with
       | None => Return tt
       | Some e => Raise e
       end, c2) ∧
    get_all_endpoints c2 = (Return endpoints, c2) ∧
    PyDict.get endpoint endpoints
    = Some {| view_route := route; view_methods := methods;
              view_traffic := [(backend_tag, weight)]; view_shadows := [] |}.
Proof.
  destruct (HTTPState_ensure_http_route_exists endpoint 30 (http_state c)) as [[e|] h] eqn:Hw;
    eexists _, _, _, _;
    (split; [unfold create_backend; run_M; simpl; reflexivity|]);
    (split; [unfold create_endpoint, ensure_http_route_exists; run_M; simpl;
             unfold get_backend, BackendState_get_backend; run_M; simpl;
             rewrite lookup_insert_eq; simpl; rewrite Hw; simpl; reflexivity|]);
    (split; [reflexivity|]); simpl;
    rewrite get_endpoints_lookup; unfold EndpointState_create_endpoint;
    by rewrite PyDictFacts.get_set_eq.
Qed.

End ControllerInterfaceFacts.

(** ** The handlers at work on the concrete serving system *)
Module InterfaceScenarioFacts.
Import Scenario.

Ltac by_computation := apply (bool_decide_unpack _); vm_compute; exact I.
Import InterfaceScenario.

Lemma delete_backend_unused_returns_witness :
  ¬ backend_in_use (endpoint_state three_replicas) "B" ∧
  ∃ goal_id c',
    delete_backend "B" true three_replicas = (Return goal_id, c') ∧
    endpoint_state c' = endpoint_state three_replicas.
Proof.
  assert (Hfree : ¬ backend_in_use (endpoint_state three_replicas) "B") by by_computation.
  split; [exact Hfree|].
  destruct (delete_backend_unused_returns three_replicas "B" true Hfree)
    as (goal_id & c' & Heq & _ & Hes & _).
  by exists goal_id, c'.
Defined.

Lemma slash_d_prefix : ∀ p, Some "/d" = Some p → startswith p "/" = true.
Proof. by intros p [= <-]. Qed.

Lemma deploy_then_get_deployment_info_witness :
  (∀ p, Some "/d" = Some p → startswith p "/" = true) ∧
  ∃ goal_id c',
    deploy backend_def create_backend_replica ALL_HTTP_METHODS
      "d" (config 3) (ClassDef ["__call__"]) (Some "v1") (Some "/d") started
    = (Return goal_id, c') ∧
    get_deployment_info "d" c' = (Return (deployed_info, Some "/d"), c').
Proof.
  split; [exact slash_d_prefix|].
  destruct (deploy_then_get_deployment_info backend_def create_backend_replica
              ALL_HTTP_METHODS started "d" (config 3) (ClassDef ["__call__"])
              (Some "v1") (Some "/d") slash_d_prefix)
    as (goal_id & c' & Heq & Hinfo & _).
  by exists goal_id, c'.
Defined.

Lemma deploy_then_delete_backend_fails_witness :
  (∀ p, Some "/d" = Some p → startswith p "/" = true) ∧
  ∃ goal_id c' msg c'',
    deploy backend_def create_backend_replica ALL_HTTP_METHODS
      "d" (config 3) (ClassDef ["__call__"]) (Some "v1") (Some "/d") started
    = (Return goal_id, c') ∧
    delete_backend "d" true c' = (Raise (ValueError msg), c'').
Proof.
  split; [exact slash_d_prefix|].
  destruct (deploy_then_delete_backend_fails backend_def create_backend_replica
              ALL_HTTP_METHODS started "d" (config 3) (ClassDef ["__call__"])
              (Some "v1") (Some "/d") true slash_d_prefix)
    as (goal_id & c' & msg & c'' & Heq & Hdel & _).
  by exists goal_id, c', msg, c''.
Defined.

Lemma d_registered :
  ∀ backend, backend ∈ [("d", 1%float)].*1 → registered (backend_state deployed) backend.
Proof. intros backend Hin. apply list_elem_of_singleton in Hin as ->. by_computation. Qed.

Lemma create_endpoint_then_delete_endpoint_witness :
  (∀ backend, backend ∈ [("d", 1%float)].*1 → registered (backend_state deployed) backend) ∧
  ¬ endpoint_exists (endpoint_state deployed) "foo" ∧
  ∃ r c1 c2,
    create_endpoint HTTPState_ensure_http_route_exists
      "foo" [("d", 1%float)] (Some "/foo") {["GET"]} deployed = (r, c1) ∧
    delete_endpoint "foo" c1 = (Return tt, c2) ∧
    endpoint_state c2 = endpoint_state deployed.
Proof.
  assert (Hfree : ¬ endpoint_exists (endpoint_state deployed) "foo") by by_computation.
  split; [exact d_registered|]. split; [exact Hfree|].
  destruct (create_endpoint_then_delete_endpoint HTTPState_ensure_http_route_exists
              deployed "foo" [("d", 1%float)] (Some "/foo") {["GET"]} d_registered Hfree)
    as (r & c1 & c2 & Hcreate & _ & Hdelete & Hes & _).
  by exists r, c1, c2.
Defined.

Lemma d_own_endpoint :
  ∀ e, e ∈ endpoint_state deployed → references e.2.2 "d" → e.1 = "d".
Proof.
  intros e Hin _. apply list_elem_of_singleton.
  change ["d"] with (endpoint_state deployed).*1.
  apply list_elem_of_fmap. by exists e.
Qed.

Lemma delete_deployment_as_two_calls_witness :
  (∀ e, e ∈ endpoint_state deployed → references e.2.2 "d" → e.1 = "d") ∧
  ∃ goal_id c1 c2,
    delete_deployment "d" deployed = (Return goal_id, c1) ∧
    M_bind _ _ (λ _, delete_backend "d" false) (delete_endpoint "d") deployed
    = (Return goal_id, c2) ∧
    backend_state c1 = backend_state c2.
Proof.
  split; [exact d_own_endpoint|].
  destruct (delete_deployment_as_two_calls deployed "d" d_own_endpoint)
    as (goal_id & c1 & c2 & H1 & H2 & _ & Hbs & _).
  by exists goal_id, c1, c2.
Defined.

Lemma d_lookup : backends (backend_state deployed) !! "d" = Some deployed_info.
Proof. reflexivity. Qed.

Lemma update_backend_config_then_get_backend_config_witness :
  backends (backend_state deployed) !! "d" = Some deployed_info ∧
  ∃ goal_id c',
    update_backend_config "d" (config 5) deployed = (Return goal_id, c') ∧
    get_backend_config "d" c'
    = (Return (BackendConfig_copy (config 3) (BackendConfig_dict_exclude_unset (config 5))),
       c').
Proof.
  split; [exact d_lookup|].
  destruct (update_backend_config_then_get_backend_config deployed "d" (config 5)
              deployed_info d_lookup)
    as (goal_id & c' & _ & _ & Hupd & Hget & _).
  by exists goal_id, c'.
Defined.

Lemma update_backend_config_nothing_set_witness :
  registered (backend_state deployed) "d" ∧
  fields_set default_options = ∅ ∧
  ∃ goal_id c',
    update_backend_config "d" default_options deployed = (Return goal_id, c') ∧
    backends (backend_state c') = backends (backend_state deployed).
Proof.
  assert (Hreg : registered (backend_state deployed) "d") by by_computation.
  split; [exact Hreg|]. split; [reflexivity|].
  destruct (update_backend_config_nothing_set deployed "d" default_options Hreg eq_refl)
    as (goal_id & c' & Hupd & Hsame & _).
  by exists goal_id, c'.
Defined.

Lemma started_runs_nothing :
  ∀ p, p ∈ running_replica_handles (backend_state started) → p.2 = [].
Proof. intros p Hp. by apply elem_of_nil in Hp. Qed.

Lemma _handle_warning_without_replicas_witness :
  (∀ p, p ∈ running_replica_handles (backend_state started) → p.2 = []) ∧
  ∃ c',
    _handle_warning "10.0.0.1" 20%float started = (Return tt, c') ∧
    backend_state c' = backend_state started.
Proof.
  split; [exact started_runs_nothing|].
  destruct (_handle_warning_without_replicas started "10.0.0.1" 20%float started_runs_nothing)
    as (c' & Heq & _ & Hbs & _).
  by exists c'.
Defined.

Lemma gone_in_dictionary : "gone" ∈ [("B", 1); ("gone", 1)].*1.
Proof. apply elem_of_cons. right. by apply list_elem_of_singleton. Qed.

(** The rollback of [{B: 1, gone: 1}] when [gone] has no recorded count:
    the counts end as [{B: 2, gone: -1}]. *)
Lemma _rescale_after_warning_expires_missing_backend_witness :
  "gone" ∈ [("B", 1); ("gone", 1)].*1 ∧
  _target_replicas (backend_state three_replicas) !! "gone" = None ∧
  ∃ c',
    _rescale_after_warning_expires [("B", 1); ("gone", 1)] three_replicas
    = (Return tt, c') ∧
    _target_replicas (backend_state c') !! "gone" = Some (-1) ∧
    target_replica_count (_target_replicas (backend_state c')) "B" = 2.
Proof.
  split; [exact gone_in_dictionary|]. split; [reflexivity|].
  destruct (_rescale_after_warning_expires_missing_backend three_replicas
              [("B", 1); ("gone", 1)] "gone" gone_in_dictionary eq_refl)
    as (c' & Heq & Hgone & Hcount & _).
  exists c'. split; [exact Heq|]. split; [exact Hgone|]. by rewrite Hcount.
Defined.

Lemma handle_all_preserves_integrity_witness :
  referential_integrity deployed ∧
  referential_integrity
    (handle_all backend_def create_backend_replica ALL_HTTP_METHODS RESERVED_VERSION_TAG
       HTTPState_ensure_http_route_exists session deployed).
Proof.
  assert (Hint : referential_integrity deployed) by by_computation.
  split; [exact Hint|].
  exact (handle_all_preserves_integrity backend_def create_backend_replica ALL_HTTP_METHODS
           RESERVED_VERSION_TAG HTTPState_ensure_http_route_exists session deployed Hint).
Defined.

(** C3, the code where a second endpoint still routes to the backend of the
    deployment: [foo] references [d], and [delete_backend] refuses to delete
    [d] in this state; [delete_deployment] makes no check and takes no lock,
    it returns the goal of the teardown it requested, and [foo] is left
    routing to the backend that is being torn down. *)
Theorem delete_deployment_skips_reference_check :
  (endpoint_state routed_twice).*1 = ["d"; "foo"] ∧
  (traffic_dict ∘ snd <$> PyDict.get "foo" (endpoint_state routed_twice))
  = Some [("d", 1%float)] ∧
  backend_in_use (endpoint_state routed_twice) "d" ∧
  (delete_backend "d" false routed_twice).1
  = Raise (ValueError
             "Backend 'd' is used by endpoint 'd' and cannot be deleted. Please remove the backend from all endpoints and try again.") ∧
  (delete_deployment "d" routed_twice).1 = Return (Some 1%nat) ∧
  (endpoint_state (delete_deployment "d" routed_twice).2).*1 = ["foo"] ∧
  (traffic_dict ∘ snd
     <$> PyDict.get "foo" (endpoint_state (delete_deployment "d" routed_twice).2))
  = Some [("d", 1%float)] ∧
  backend_in_use (endpoint_state (delete_deployment "d" routed_twice).2) "d" ∧
  backend_state (delete_deployment "d" routed_twice).2
  = (BackendState_delete_backend "d" false (backend_state routed_twice)).2 ∧
  trace (delete_deployment "d" routed_twice).2 = trace routed_twice.
Proof.
  repeat split; try reflexivity; by_computation.
Qed.

(** What the session leaves: the deployment [d] only.  The first deletion
    of [b1] was refused while [foo] used it and the second, after [foo] was
    deleted, went through; [bar], which also named the unregistered [b2], and
    the deployment [e], whose prefix lacks the slash, were never created. *)
Example session_outcome :
  (endpoint_state
     (handle_all backend_def create_backend_replica ALL_HTTP_METHODS RESERVED_VERSION_TAG
        HTTPState_ensure_http_route_exists session deployed)).*1 = ["d"] ∧
  dom (backends (backend_state
     (handle_all backend_def create_backend_replica ALL_HTTP_METHODS RESERVED_VERSION_TAG
        HTTPState_ensure_http_route_exists session deployed))) = ({["d"]} : gset string).
Proof. split; by_computation. Qed.

End InterfaceScenarioFacts.
